(** * hugoreleaser: command pipeline and release client

    A shallow embedding of [cmd/allcmd/allcmd.go], of the release client
    (package [releases]) and of [main.go], followed by the properties of
    the specification that concern them.

    Go values are modelled as follows.
    - [int], [int64]: [Z] (no arithmetic is performed on them in this code,
      only comparisons, so no wrap-around arises).
    - [string]: [string].
    - a nilable pointer or interface: [option].
    - the [error] interface: [option errval], [None] being [nil].
    - calls into code outside this repository (handlers, the file system,
      the remote API, the random source): functions on an abstract world
      [W], run inside a small state monad that also keeps a ghost list of
      the calls made, in order.
    - a run-time panic: the [Panics] outcome of that monad. *)

From Stdlib Require Import ZArith List String Ascii Bool Lia.
From Stdlib Require Import DecimalString.
Import ListNotations.

Local Open Scope string_scope.
Local Open Scope Z_scope.

(* ===================================================================== *)
(** * Part I: the program *)
(* ===================================================================== *)

(** ** The parts of the Go standard library the code relies on *)

Module Go.

(** Dynamic values of the [error] interface that occur in this program.
    - [errorString]: a leaf error ([errors.New], [fmt.Errorf] without
      [%w], or an error of another library without [Unwrap]);
    - [wrapError]: an error with an [Unwrap] method ([fmt.Errorf] with
      [%w], [*url.Error]);
    - [DeadlineExceeded], [Canceled]: the two sentinels of package
      [context];
    - [TemporaryError]: the struct of package [releases], which embeds an
      [error] (possibly [nil]). The embedding promotes the method set of
      the interface [error], that is [Error] alone: the struct has
      neither [Unwrap] nor [Is]. *)
#[warnings="-register-all"]
Inductive errval : Type :=
  | errorString (s : string)
  | wrapError (s : string) (inner : errval)
  | DeadlineExceeded
  | Canceled
  | TemporaryError (inner : option errval).

Definition error : Type := option errval.

Definition isNil {A} (e : option A) : bool :=
  match e with None => true | Some _ => false end.

(** The text fmt prints when the [Error] method of its operand panics. *)
Definition fmt_panic_text : string :=
  "%!v(PANIC=Error method: runtime error: invalid memory address or nil pointer dereference)".

(** The method [Error() string]; [None] when the call panics, which is
    the case of a [TemporaryError] whose embedded error is [nil]. *)
Fixpoint Error (e : errval) : option string :=
  match e with
  | errorString s => Some s
  | wrapError s _ => Some s
  | DeadlineExceeded => Some "context deadline exceeded"
  | Canceled => Some "context canceled"
  | TemporaryError (Some inner) => Error inner
  | TemporaryError None => None
  end.

(** [%v], [%s] and [%w] applied to a non-nil error. *)
Definition fmt_v (e : errval) : string :=
  match Error e with Some s => s | None => fmt_panic_text end.

(** [%d]. *)
Definition fmt_d (z : Z) : string := NilZero.string_of_int (Z.to_int z).

(** The comparison [err == target] of two non-nil interface values.
    Pointer-typed errors are compared by their content here; the three
    targets this program passes to [errors.Is] are [TemporaryError{}],
    [context.DeadlineExceeded] and [context.Canceled], for which the
    comparison is exactly Go's. *)
Fixpoint errval_eqb (a b : errval) : bool :=
  match a, b with
  | errorString s, errorString t => String.eqb s t
  | wrapError s x, wrapError t y => String.eqb s t && errval_eqb x y
  | DeadlineExceeded, DeadlineExceeded => true
  | Canceled, Canceled => true
  | TemporaryError None, TemporaryError None => true
  | TemporaryError (Some x), TemporaryError (Some y) => errval_eqb x y
  | _, _ => false
  end.

(** [errors.Unwrap]. *)
Definition Unwrap (e : errval) : error :=
  match e with
  | wrapError _ inner => Some inner
  | _ => None
  end.

(** The loop of [errors.Is] for a non-nil target: compare, then (no
    value of [errval] has an [Is] method) unwrap and go on until
    [Unwrap] yields [nil]. *)
Fixpoint Is_loop (err target : errval) : bool :=
  errval_eqb err target ||
  match err with
  | wrapError _ inner => Is_loop inner target
  | _ => false
  end.

(** [errors.Is(err, target)]. *)
Definition errors_Is (err target : error) : bool :=
  match target with
  | None => isNil err
  | Some t =>
      match err with
      | None => false
      | Some e => Is_loop e t
      end
  end.

(** [Reaches err target]: [target] is [err] itself or is met by
    unwrapping [err] repeatedly; the chain [errors.Is] walks. *)
Inductive Reaches : errval -> errval -> Prop :=
  | Reaches_here e : Reaches e e
  | Reaches_unwrap s inner t : Reaches inner t -> Reaches (wrapError s inner) t.

(** [fmt.Errorf(prefix + "%w", err)]: a [wrapError] when the operand is
    an error, and a plain error that prints the bad verb when the
    operand is [nil]. *)
Definition Errorf_w (prefix : string) (err : error) : errval :=
  match err with
  | Some e => wrapError (prefix ++ fmt_v e) e
  | None => errorString (prefix ++ "%!w(<nil>)")
  end.

(** [context.Context], as far as this program builds one. *)
Inductive Context : Type :=
  | Background
  | WithTimeout (parent : Context) (d : Z).

(** Constants of [net/http]. *)
Definition StatusCreated : Z := 201.
Definition StatusBadRequest : Z := 400.
Definition StatusUnprocessableEntity : Z := 422.

(** *** Effects

    A computation runs on a state made of the world and the ghost list
    of calls, and either returns or panics. *)
Inductive outcome (A : Type) : Type :=
  | Returns (a : A)
  | Panics (r : string).
Arguments Returns {A} a.
Arguments Panics {A} r.

Section Effects.
Context {W Ev : Type}.

Record St : Type := mkSt { world : W; calls : list Ev }.

Definition M (A : Type) : Type := St -> outcome A * St.

Definition ret {A} (a : A) : M A := fun s => (Returns a, s).

Definition bind {A B} (c : M A) (k : A -> M B) : M B :=
    fun s =>
      match c s with
      | (Returns a, s') => k a s'
      | (Panics r, s') => (Panics r, s')
      end.

Definition panic {A} (r : string) : M A := fun s => (Panics r, s).

  (** A call into code outside the model: the call is logged, then the
      callee transforms the world. *)
Definition extern {A} (ev : Ev) (f : W -> outcome A * W) : M A :=
    fun s =>
      let (o, w') := f (world s) in
      (o, mkSt w' (calls s ++ [ev])).

  (** The same for a callee that cannot panic. *)
Definition call {A} (ev : Ev) (f : W -> A * W) : M A :=
    extern ev (fun w => let (a, w') := f w in (Returns a, w')).

  (** Reading the world without a logged call. *)
Definition peek {A} (f : W -> A) : M A :=
    fun s => (Returns (f (world s)), s).

  (** [defer cleanup(); body]: the clean-up runs when the body is left,
      by return or by panic; its own result is dropped, its own panic
      replaces the outcome. *)
Definition defer {A B} (cleanup : M B) (body : M A) : M A :=
    fun s =>
      let (o, s1) := body s in
      match cleanup s1 with
      | (Returns _, s2) => (o, s2)
      | (Panics r, s2) => (Panics r, s2)
      end.

  (** Start a computation on a world with an empty log. *)
Definition run {A} (c : M A) (w : W) : outcome A * St := c (mkSt w []).

End Effects.

Arguments St : clear implicits.
Arguments M : clear implicits.

Declare Scope go_scope.
Delimit Scope go_scope with go.
Notation "x <- c ;; k" := (bind c (fun x => k))
  (at level 61, c at next level, right associativity) : go_scope.
Notation "' pat <- c ;; k" := (bind c (fun x => match x with pat => k end))
  (at level 61, pat pattern, c at next level, right associativity) : go_scope.

End Go.


(** ** Package [allcmd]: [cmd/allcmd/allcmd.go] *)

Module Allcmd.
Import Go.
Local Open Scope go_scope.

Definition commandName : string := "all".

(** Ghost events of the pipeline: which method was called on the handler
    at which position of [commandHandlers] (positions count from 0). *)
Inductive Ev : Type :=
  | CallInit (i : nat)
  | CallExec (i : nat).

Section Handlers.
Variables W Args LevelLogger : Type.
(** [logg.LevelLogger.WithField], of another library. *)
Variable WithField : LevelLogger -> string -> string -> LevelLogger.

(** The interface [corecmd.CommandHandler]: [Init() error] and
    [Exec(ctx, args) error], implemented outside this file. *)
Record CommandHandler : Type := {
  Init : W -> outcome error * W;
  Exec : Context -> Args -> W -> outcome error * W
}.

(** [corecmd.Core], the one field this file reads. *)
Record Core : Type := { InfoLog : option LevelLogger }.

Record all : Type := {
  infoLog : option LevelLogger;
  core : Core;
  builder : CommandHandler;
  archivist : CommandHandler;
  releaser : CommandHandler
}.

(** [func (a *all) Init() error]: stores the logger in the receiver and
    returns [nil]; calling [WithField] on a nil logger panics. *)
Definition all_Init (a : all) : outcome (all * error) :=
  match InfoLog (core a) with
  | None => Panics "runtime error: invalid memory address or nil pointer dereference"
  | Some l =>
      Returns ({| infoLog := Some (WithField l "all" commandName);
                  core := core a;
                  builder := builder a;
                  archivist := archivist a;
                  releaser := releaser a |}, None)
  end.

(** The slice built in [Exec]. *)
Definition commandHandlers (a : all) : list CommandHandler :=
  [builder a; archivist a; releaser a].

(** First loop of [Exec]: [Init] on every handler from position [i] on,
    returning at the first error. *)
Fixpoint initLoop (i : nat) (hs : list CommandHandler) : M W Ev error :=
  match hs with
  | [] => ret None
  | h :: rest =>
      err <- extern (CallInit i) (Init h) ;;
      match err with
      | Some e => ret (Some e)
      | None => initLoop (S i) rest
      end
  end.

(** Second loop of [Exec]. *)
Fixpoint execLoop (ctx : Context) (args : Args) (i : nat)
    (hs : list CommandHandler) : M W Ev error :=
  match hs with
  | [] => ret None
  | h :: rest =>
      err <- extern (CallExec i) (Exec h ctx args) ;;
      match err with
      | Some e => ret (Some e)
      | None => execLoop ctx args (S i) rest
      end
  end.

(** The two loops over a slice of handlers, one after the other. *)
Definition pipeline (ctx : Context) (args : Args)
    (hs : list CommandHandler) : M W Ev error :=
  err <- initLoop 0 hs ;;
  match err with
  | Some e => ret (Some e)
  | None => execLoop ctx args 0 hs
  end.

(** [func (a *all) Exec(ctx, args) error]; the receiver as [Init] left it
    is returned next to the error. *)
Definition all_Exec (a : all) (ctx : Context) (args : Args)
  : M W Ev (all * error) :=
  fun s =>
    match all_Init a with
    | Panics r => (Panics r, s)
    | Returns (a', Some e) => (Returns (a', Some e), s)
    | Returns (a', None) =>
        (err <- pipeline ctx args (commandHandlers a') ;; ret (a', err)) s
    end.

(** What it means for the handlers of a list to initialize, respectively
    execute, without error one after the other, from world [w] to world
    [w']. *)
Inductive InitsSucceed : list CommandHandler -> W -> W -> Prop :=
  | InitsSucceed_nil w : InitsSucceed [] w w
  | InitsSucceed_cons h hs w w1 w2 :
      Init h w = (Returns None, w1) ->
      InitsSucceed hs w1 w2 ->
      InitsSucceed (h :: hs) w w2.

Inductive ExecsSucceed (ctx : Context) (args : Args)
  : list CommandHandler -> W -> W -> Prop :=
  | ExecsSucceed_nil w : ExecsSucceed ctx args [] w w
  | ExecsSucceed_cons h hs w w1 w2 :
      Exec h ctx args w = (Returns None, w1) ->
      ExecsSucceed ctx args hs w1 w2 ->
      ExecsSucceed ctx args (h :: hs) w w2.

End Handlers.

Arguments Init {W Args} _ _.
Arguments Exec {W Args} _ _ _ _.
Arguments InfoLog {LevelLogger} _.
Arguments infoLog {W Args LevelLogger} _.
Arguments core {W Args LevelLogger} _.
Arguments builder {W Args LevelLogger} _.
Arguments archivist {W Args LevelLogger} _.
Arguments releaser {W Args LevelLogger} _.
Arguments initLoop {W Args} i hs _.
Arguments execLoop {W Args} ctx args i hs _.
Arguments pipeline {W Args} ctx args hs _.
Arguments all_Init {W Args LevelLogger} WithField a.
Arguments all_Exec {W Args LevelLogger} WithField a ctx args _.
Arguments commandHandlers {W Args LevelLogger} a.
Arguments InitsSucceed {W Args} _ _ _.
Arguments ExecsSucceed {W Args} ctx args _ _ _.

End Allcmd.


(** ** Package [releases]: the release client *)

Module Releases.
Import Go.
Local Open Scope go_scope.

Definition tokenEnvVar : string := "GITHUB_TOKEN".

(** Modelled from the spec: [releasetypes.Type], declared outside the
    files at hand. The spec speaks of a declared release-service type of
    which one variant is supported; every other value, whatever it is, is
    an [OtherType]. *)
Inductive releasetypes_Type : Type :=
  | GitHub
  | OtherType (tag : Z).

Definition Type_eqb (a b : releasetypes_Type) : bool :=
  match a, b with
  | GitHub, GitHub => true
  | OtherType x, OtherType y => x =? y
  | _, _ => false
  end.

(** [config.ReleaseSettings], the fields the client reads. *)
Record ReleaseSettings : Type := {
  RepositoryOwner : string;
  Repository : string;
  Name : string;
  ReleaseNotesFilename : string;
  Draft : bool;
  Prerelease : bool;
  GenerateReleaseNotesOnHost : bool
}.

(** An open [os.File]; a [*os.File] is an [option File]. *)
Record File : Type := { fd : nat; File_Name : string }.

(** [github.RepositoryRelease], [github.Response], [github.UploadOptions]
    and [github.Client], as far as they are used. *)
Record RepositoryRelease : Type := {
  TagName : option string;
  TargetCommitish : option string;
  rrName : option string;
  Body : option string;
  rrDraft : option bool;
  rrPrerelease : option bool;
  GenerateReleaseNotes : option bool;
  ID : option Z
}.

Record Response : Type := { StatusCode : Z }.

Record UploadOptions : Type := { uoName : string }.

Record github_Client : Type := { AccessToken : string; clientCtx : Context }.

(** Ghost events of the client. *)
Inductive Ev : Type :=
  | EvOpenFile
  | EvClose (f : option File)
  | EvReadFile (name : string)
  | EvCreateRelease (owner repo : string) (r : RepositoryRelease)
  | EvUploadReleaseAsset (owner repo : string) (releaseID : Z)
      (opts : UploadOptions) (f : File)
  | EvPrintfFakeRelease (tagName committish : string) (settings : ReleaseSettings)
  | EvRandInt63.

(** The events that are requests to the remote service. *)
Definition is_network (ev : Ev) : bool :=
  match ev with
  | EvCreateRelease _ _ _ => true
  | EvUploadReleaseAsset _ _ _ _ _ => true
  | _ => false
  end.

Definition nil_deref : string :=
  "runtime error: invalid memory address or nil pointer dereference".

Definition dquote : string := String (ascii_of_nat 34) EmptyString.

(** [%q] on a string without characters that need escaping. *)
Definition fmt_q (s : string) : string := dquote ++ s ++ dquote.

(** [rngMask] of [math/rand]. *)
Definition rngMask : Z := 2 ^ 63 - 1.

(** [isTemporaryHttpStatus] returns true if the status code is considered
    temporary, returning true if not sure. *)
Definition isTemporaryHttpStatus (status : Z) : bool :=
  if (status =? StatusUnprocessableEntity) || (status =? StatusBadRequest)
  then false
  else true.

(** What the client calls outside this repository. *)
Record Host (W : Type) : Type := {
  os_Getenv : string -> W -> string;
  os_ReadFile : string -> W -> (string * error) * W;
  os_File_Close : File -> W -> error * W;
  filepath_Base : string -> string;
  Repositories_CreateRelease :
    github_Client -> Context -> string -> string -> RepositoryRelease ->
    W -> (option RepositoryRelease * option Response * error) * W;
  Repositories_UploadReleaseAsset :
    github_Client -> Context -> string -> string -> Z -> UploadOptions ->
    File -> W -> (option Response * error) * W;
  (** the [Uint64] of the random source behind [rand.Int63] *)
  rand_Uint64 : W -> Z * W
}.
Arguments os_Getenv {W} _ _ _.
Arguments os_ReadFile {W} _ _ _.
Arguments os_File_Close {W} _ _ _.
Arguments filepath_Base {W} _ _.
Arguments Repositories_CreateRelease {W} _ _ _ _ _ _ _.
Arguments Repositories_UploadReleaseAsset {W} _ _ _ _ _ _ _ _ _.
Arguments rand_Uint64 {W} _ _.

Record GitHubClient : Type := { client : github_Client }.

(** Fake client is only used in tests. *)
Record FakeClient : Type := { releaseID : Z }.

(** [&FakeClient{}]: every field has its zero value. *)
Definition FakeClient_zero : FakeClient := {| releaseID := 0 |}.

(** The interface [Client]. [Release] has a pointer receiver in one
    implementation and returns the receiver as it leaves it;
    [UploadAssetsFile] writes to its receiver in neither. *)
Class Client (W C : Type) : Type := {
  Release : C -> Context -> string -> string -> ReleaseSettings ->
            M W Ev (C * (Z * error));
  UploadAssetsFile : C -> Context -> ReleaseSettings -> option File -> Z ->
                     M W Ev error
}.

Section WithHost.
Context {W : Type} (host : Host W).

(** [rand.Int63]: the low 63 bits of the next output of the source. *)
Definition rand_Int63 : M W Ev Z :=
  x <- call EvRandInt63 (rand_Uint64 host) ;;
  ret (Z.land x rngMask).

(** [f.Close()]; on a nil file it returns an error and does nothing. *)
Definition File_Close (f : option File) : M W Ev error :=
  call (EvClose f)
    (fun w =>
       match f with
       | Some h => os_File_Close host h w
       | None => (Some (errorString "invalid argument"), w)
       end).

(** The local closure [s] of [GitHubClient.Release]. *)
Definition Release_s (s : string) : option string :=
  if String.eqb s "" then None else Some s.

(** The request [GitHubClient.Release] submits. *)
Definition release_request (tagName committish : string)
    (settings : ReleaseSettings) (body : string) : RepositoryRelease :=
  {| TagName := Release_s tagName;
     TargetCommitish := Release_s committish;
     rrName := Release_s (Name settings);
     Body := Release_s body;
     rrDraft := Some (Draft settings);
     rrPrerelease := Some (Prerelease settings);
     GenerateReleaseNotes := Some (GenerateReleaseNotesOnHost settings);
     ID := None |}.

(** [GitHubClient.Release], from the construction of the request on. *)
Definition Release_submit (c : GitHubClient) (ctx : Context)
    (tagName committish : string) (settings : ReleaseSettings)
    (body : string) : M W Ev (Z * error) :=
  let r := release_request tagName committish settings body in
  '(rel, resp, err) <-
     call (EvCreateRelease (RepositoryOwner settings) (Repository settings) r)
          (Repositories_CreateRelease host (client c) ctx
             (RepositoryOwner settings) (Repository settings) r) ;;
  match err with
  | Some e => ret (0, Some e)
  | None =>
      match resp with
      | None => panic nil_deref
      | Some rsp =>
          if negb (StatusCode rsp =? StatusCreated)
          then ret (0, Some (errorString
                 ("github: unexpected status code: " ++ fmt_d (StatusCode rsp))))
          else
            match rel with
            | Some rl =>
                match ID rl with
                | Some id => ret (id, None)
                | None => panic nil_deref
                end
            | None => panic nil_deref
            end
      end
  end.

(** [func (c GitHubClient) Release(ctx, tagName, committish, settings)]. *)
Definition GitHubClient_Release (c : GitHubClient) (ctx : Context)
    (tagName committish : string) (settings : ReleaseSettings)
  : M W Ev (Z * error) :=
  if negb (String.eqb (ReleaseNotesFilename settings) "")
  then
    '(b, err) <- call (EvReadFile (ReleaseNotesFilename settings))
                      (os_ReadFile host (ReleaseNotesFilename settings)) ;;
    match err with
    | Some e => ret (0, Some e)
    | None => Release_submit c ctx tagName committish settings b
    end
  else Release_submit c ctx tagName committish settings "".

(** [GitHubClient.UploadAssetsFile] with the status classifier as an
    argument. *)
Definition UploadAssetsFile_with (classify : Z -> bool) (c : GitHubClient)
    (ctx : Context) (settings : ReleaseSettings) (f : option File)
    (releaseID : Z) : M W Ev error :=
  match f with
  | None => panic nil_deref
  | Some fh =>
      let opts := {| uoName := filepath_Base host (File_Name fh) |} in
      '(resp, err) <-
         call (EvUploadReleaseAsset (RepositoryOwner settings)
                 (Repository settings) releaseID opts fh)
              (Repositories_UploadReleaseAsset host (client c) ctx
                 (RepositoryOwner settings) (Repository settings)
                 releaseID opts fh) ;;
      match err with
      | None => ret None
      | Some e =>
          if match resp with
             | Some rsp => negb (classify (StatusCode rsp))
             | None => false
             end
          then ret (Some e)
          else ret (Some (TemporaryError (Some e)))
      end
  end.

(** [func (c GitHubClient) UploadAssetsFile(ctx, settings, f, releaseID)]. *)
Definition GitHubClient_UploadAssetsFile :
  GitHubClient -> Context -> ReleaseSettings -> option File -> Z ->
  M W Ev error :=
  UploadAssetsFile_with isTemporaryHttpStatus.

(** [func (c *FakeClient) Release(...)]. *)
Definition FakeClient_Release (c : FakeClient) (ctx : Context)
    (tagName committish : string) (settings : ReleaseSettings)
  : M W Ev (FakeClient * (Z * error)) :=
  _ <- call (EvPrintfFakeRelease tagName committish settings)
            (fun w => (tt, w)) ;;
  id <- rand_Int63 ;;
  ret ({| releaseID := id |}, (id, None)).

(** [func (c *FakeClient) UploadAssetsFile(...)]. *)
Definition FakeClient_UploadAssetsFile (c : FakeClient) (ctx : Context)
    (settings : ReleaseSettings) (f : option File) (id : Z)
  : M W Ev error :=
  if negb (releaseID c =? id)
  then ret (Some (errorString
         ("fake: releaseID mismatch: " ++ fmt_d (releaseID c) ++ " != " ++ fmt_d id)))
  else if isNil f
  then ret (Some (errorString "fake: nil file"))
  else ret None.

#[export] Instance GitHubClient_Client : Client W GitHubClient := {
  Release c ctx tagName committish settings :=
    r <- GitHubClient_Release c ctx tagName committish settings ;; ret (c, r);
  UploadAssetsFile := GitHubClient_UploadAssetsFile
}.

#[export] Instance FakeClient_Client : Client W FakeClient := {
  Release := FakeClient_Release;
  UploadAssetsFile := FakeClient_UploadAssetsFile
}.

(** A value of interface type [Client] as [NewClient] builds it:
    a [*FakeClient] or a [*GitHubClient]. *)
Inductive ClientValue : Type :=
  | ClientFake (c : FakeClient)
  | ClientGitHub (c : GitHubClient).

#[export] Instance ClientValue_Client : Client W ClientValue := {
  Release cv ctx tagName committish settings :=
    match cv with
    | ClientFake c =>
        '(c', r) <- FakeClient_Release c ctx tagName committish settings ;;
        ret (ClientFake c', r)
    | ClientGitHub c =>
        r <- GitHubClient_Release c ctx tagName committish settings ;;
        ret (ClientGitHub c, r)
    end;
  UploadAssetsFile cv ctx settings f id :=
    match cv with
    | ClientFake c => FakeClient_UploadAssetsFile c ctx settings f id
    | ClientGitHub c => GitHubClient_UploadAssetsFile c ctx settings f id
    end
}.

(** [func NewClient(ctx, typ) (Client, error)]. Building the oauth2 and
    GitHub clients stores the token and sends nothing. *)
Definition NewClient (ctx : Context) (typ : releasetypes_Type)
  : M W Ev (option ClientValue * error) :=
  if negb (Type_eqb typ GitHub)
  then ret (None, Some (errorString "github: only github is supported for now"))
  else
    token <- peek (os_Getenv host tokenEnvVar) ;;
    if String.eqb token ""
    then ret (None, Some (errorString
           ("github: missing " ++ fmt_q tokenEnvVar ++ " env var")))
    else if String.eqb token "faketoken"
    then ret (Some (ClientFake FakeClient_zero), None)
    else ret (Some (ClientGitHub
           {| client := {| AccessToken := token; clientCtx := ctx |} |}), None).

(** An error made outside this package: no [TemporaryError] occurs in
    it. The GitHub library and the standard library cannot build a
    [TemporaryError], a type of this package. *)
Fixpoint foreign (e : errval) : bool :=
  match e with
  | errorString _ => true
  | wrapError _ inner => foreign inner
  | DeadlineExceeded => true
  | Canceled => true
  | TemporaryError _ => false
  end.

(** The condition under which an attempt is reported as worth retrying. *)
Definition retryable (err : error) : bool :=
  negb (isNil err) && errors_Is err (Some (TemporaryError None)).

(** The closure [UploadAssetsFileWithRetries] hands to [withRetries]: one
    attempt. [openFile] is the caller's closure. *)
Definition uploadAttempt {C} {cl : Client W C} (ctx : Context) (c : C)
    (settings : ReleaseSettings) (id : Z)
    (openFile : W -> (option File * error) * W) : M W Ev (error * bool) :=
  '(f, err) <- call EvOpenFile openFile ;;
  match err with
  | Some e => ret (Some e, false)
  | None =>
      defer (File_Close f)
        (err <- UploadAssetsFile c ctx settings f id ;;
         if retryable err
         then ret (err, true)
         else ret (err, false))
  end.

(** Modelled from the spec: [withRetries], the Retry Executor, whose
    source file is not at hand. It invokes the operation; no error is
    success; an error flagged retryable is retried while attempts remain
    ([more] further attempts after this one), and the last error is
    returned when they are exhausted; a fatal error is returned at once.
    The delay between attempts is not modelled. *)
Fixpoint withRetries (more : nat) (f : M W Ev (error * bool)) : M W Ev error :=
  '(err, again) <- f ;;
  match err with
  | None => ret None
  | Some e =>
      if again
      then match more with
           | O => ret (Some e)
           | S n => withRetries n f
           end
      else ret (Some e)
  end.

(** [UploadAssetsFileWithRetries] is a wrapper around [UploadAssetsFile]
    that retries on temporary errors. *)
Definition UploadAssetsFileWithRetries {C} {cl : Client W C} (more : nat)
    (ctx : Context) (c : C) (settings : ReleaseSettings) (id : Z)
    (openFile : W -> (option File * error) * W) : M W Ev error :=
  withRetries more (uploadAttempt ctx c settings id openFile).

End WithHost.

End Releases.


(** ** Package [main]: [main.go] *)

Module Main.
Import Go.

(** [parseAndRun] calls into the command framework and into [corecmd] a
    fixed number of times in a fixed order, so the error it returns is a
    function of what those calls return. [Calls] holds these results:
    of [core.PreInit()], [coreCommand.Parse(args)], [core.Init()],
    [coreCommand.Run(ctx)] and [core.Close()], and the field
    [core.Timeout] as it is once the flags are parsed. A call that is not
    reached has its result ignored. *)
Record Calls : Type := {
  PreInit : outcome error;
  Parse : outcome error;
  Timeout : Z;
  Init : outcome error;
  Run : Context -> outcome error;
  Close : outcome error
}.

Section ParseAndRun.
(** [time.Duration.String], which [%s] applies to [core.Timeout]. *)
Variable Duration_String : Z -> string.

(** The message of the error returned on a timeout. *)
Definition timeout_message (d : Z) : string :=
  "command timed out after " ++ Duration_String d ++ "; increase -timeout if needed".

(** What [parseAndRun] does after [coreCommand.Run] has returned [err]. *)
Definition after_Run (k : Calls) (err : error) : error :=
  match err with
  | Some e =>
      if errors_Is err (Some DeadlineExceeded) || errors_Is err (Some Canceled)
      then Some (errorString (timeout_message (Timeout k)))
      else Some (Errorf_w "error running command: " err)
  | None => None
  end.

(** The statements of [parseAndRun] from [core.PreInit()] to the final
    [return]. The writes to the process environment between the parsing of
    the flags and [core.Init()] (the test token under [-try], the flags
    copied into [HUGORELEASER_] variables) do not enter the result and are
    left out. *)
Definition parseAndRun_body (k : Calls) : outcome error :=
  match PreInit k with
  | Panics r => Panics r
  | Returns (Some e) => Returns (Some (Errorf_w "error in foo: " (Some e)))
  | Returns None =>
  match Parse k with
  | Panics r => Panics r
  | Returns (Some e) =>
      Returns (Some (Errorf_w "error parsing command line: " (Some e)))
  | Returns None =>
  let ctx := WithTimeout Background (Timeout k) in
  match Init k with
  | Panics r => Panics r
  | Returns (Some e) =>
      Returns (Some (Errorf_w "error initializing config: " (Some e)))
  | Returns None =>
  match Run k ctx with
  | Panics r => Panics r
  | Returns err => Returns (after_Run k err)
  end end end end.

(** The deferred function that closes the application: it replaces the
    named result only when that is [nil] and [core.Close()] fails (and
    then wraps the result, which is [nil]). A panic of [core.Close()]
    becomes the panic in flight. *)
Definition deferred_Close (k : Calls) (o : outcome error) : outcome error :=
  match Close k with
  | Panics r => Panics r
  | Returns closeErr =>
      match o with
      | Returns err =>
          if negb (isNil closeErr) && isNil err
          then Returns (Some (Errorf_w "error closing app: " err))
          else Returns err
      | Panics r => Panics r
      end
  end.

(** [func parseAndRun(args []string) (err error)]: the body, then the
    deferred close, then the deferred [recover], which turns a panic into
    an error that prints the panic value. *)
Definition parseAndRun (k : Calls) : error :=
  match deferred_Close k (parseAndRun_body k) with
  | Returns err => err
  | Panics r => Some (errorString r)
  end.

End ParseAndRun.

(** *** The process environment, as [parseAndRun] prepares it

    The code reads the environment with [os.Getenv] alone, which returns
    the empty string for a variable that is not set; an environment is
    modelled by what [os.Getenv] returns. *)
Definition Env : Type := string -> string.

Definition Getenv (env : Env) (key : string) : string := env key.

Fixpoint has_byte (c : ascii) (s : string) : bool :=
  match s with
  | EmptyString => false
  | String a rest => Ascii.eqb a c || has_byte c rest
  end.

(** [os.Setenv(key, value)], whose error the caller drops: it fails, and
    sets nothing, when the key is empty or holds ['='] or a zero byte, or
    when the value holds a zero byte. *)
Definition Setenv_ok (key value : string) : bool :=
  negb (String.eqb key "")
  && negb (has_byte "="%char key)
  && negb (has_byte zero key)
  && negb (has_byte zero value).

Definition Setenv (key value : string) (env : Env) : Env :=
  if Setenv_ok key value
  then fun k => if String.eqb k key then value else env k
  else env.

(** A [flag.Flag]: its name and what [f.Value.String()] returns. *)
Record Flag : Type := { flag_Name : string; flag_Value : string }.

Section Environment.
(** [corecmd.EnvPrefix] and [strings.ToUpper], declared elsewhere. *)
Variable EnvPrefix : string.
Variable ToUpper : string -> string.

(** [fmt.Sprintf("%s_%s", corecmd.EnvPrefix, strings.ToUpper(f.Name))]. *)
Definition envName (f : Flag) : string :=
  EnvPrefix ++ "_" ++ ToUpper (flag_Name f).

(** The function [parseAndRun] passes to [VisitAll]: pass any non-empty
    flag value into the prefixed variable if that is not already set. *)
Definition passFlag (f : Flag) (env : Env) : Env :=
  if String.eqb (Getenv env (envName f)) ""
  then
    if negb (String.eqb (flag_Value f) "")
    then Setenv (envName f) (flag_Value f) env
    else env
  else env.

(** [coreCommand.FlagSet.VisitAll] with that function, on the flags in
    the order they are visited. *)
Fixpoint passFlags (flags : list Flag) (env : Env) : Env :=
  match flags with
  | [] => env
  | f :: rest => passFlags rest (passFlag f env)
  end.

(** A flag that the pass leaves alone: its variable is set, or its value
    is empty, or the system would refuse the assignment. *)
Definition skipped (f : Flag) (env : Env) : Prop :=
  env (envName f) <> "" \/ flag_Value f = "" \/
  Setenv_ok (envName f) (flag_Value f) = false.

(** Lines 104 to 117 of [parseAndRun]: the test token under [-try], then
    the flags. *)
Definition prepareEnv (try : bool) (flags : list Flag) (env : Env) : Env :=
  passFlags flags
    (if try then Setenv "GITHUB_TOKEN" "faketoken" env else env).

End Environment.



End Main.

(** ** Concrete inputs on which the properties below are exercised *)

Module Examples.
Import Go.

(** Handlers over a world that counts the calls that succeeded. *)
Definition okHandler : Allcmd.CommandHandler nat unit :=
  {| Allcmd.Init := fun w => (Returns None, S w);
     Allcmd.Exec := fun _ _ w => (Returns None, S w) |}.

Definition initFails (msg : string) : Allcmd.CommandHandler nat unit :=
  {| Allcmd.Init := fun w => (Returns (Some (errorString msg)), w);
     Allcmd.Exec := fun _ _ w => (Returns None, S w) |}.

Definition execFails (msg : string) : Allcmd.CommandHandler nat unit :=
  {| Allcmd.Init := fun w => (Returns None, S w);
     Allcmd.Exec := fun _ _ w => (Returns (Some (errorString msg)), w) |}.

Definition withField (l : unit) (k v : string) : unit := tt.

Definition mk_all (b a r : Allcmd.CommandHandler nat unit)
  : Allcmd.all nat unit unit :=
  {| Allcmd.infoLog := None;
     Allcmd.core := {| Allcmd.InfoLog := Some tt |};
     Allcmd.builder := b;
     Allcmd.archivist := a;
     Allcmd.releaser := r |}.

(** A host for the release client, over a world that counts the requests
    sent to the remote service: the token is the test token, the release
    notes cannot be read, the service answers a release creation with
    status 200 and drops the connection on an upload, and the random
    source yields 0. *)
Definition settings0 : Releases.ReleaseSettings :=
  {| Releases.RepositoryOwner := "gohugoio";
     Releases.Repository := "hugoreleaser";
     Releases.Name := "v1.0.0";
     Releases.ReleaseNotesFilename := "notes.md";
     Releases.Draft := false;
     Releases.Prerelease := false;
     Releases.GenerateReleaseNotesOnHost := true |}.

Definition settings_no_notes : Releases.ReleaseSettings :=
  {| Releases.RepositoryOwner := "gohugoio";
     Releases.Repository := "hugoreleaser";
     Releases.Name := "v1.0.0";
     Releases.ReleaseNotesFilename := "";
     Releases.Draft := false;
     Releases.Prerelease := false;
     Releases.GenerateReleaseNotesOnHost := true |}.

Definition file0 : Releases.File :=
  {| Releases.fd := 3; Releases.File_Name := "dist/app.tar.gz" |}.

Definition conn_reset : errval := errorString "connection reset by peer".

Definition no_notes : errval :=
  errorString "open notes.md: no such file or directory".

Definition testHost : Releases.Host nat :=
  {| Releases.os_Getenv :=
       fun name _ => if String.eqb name "GITHUB_TOKEN" then "faketoken" else "";
     Releases.os_ReadFile := fun _ w => (("", Some no_notes), w);
     Releases.os_File_Close := fun _ w => (None, w);
     Releases.filepath_Base := fun _ => "app.tar.gz";
     Releases.Repositories_CreateRelease :=
       fun _ _ _ _ _ w =>
         ((None, Some {| Releases.StatusCode := 200 |}, None), S w);
     Releases.Repositories_UploadReleaseAsset :=
       fun _ _ _ _ _ _ _ w => ((None, Some conn_reset), S w);
     Releases.rand_Uint64 := fun w => (0, w) |}.

Definition liveClient : Releases.GitHubClient :=
  {| Releases.client :=
       {| Releases.AccessToken := "ghp_token";
          Releases.clientCtx := Background |} |}.

Definition openFile0 (w : nat) : (option Releases.File * error) * nat :=
  ((Some file0, None), w).


Definition durationString (d : Z) : string := "30m0s".


(** A host on which the release is created: the notes are read and the
    service answers 201 with the identifier 42. *)
Definition created : Releases.RepositoryRelease :=
  {| Releases.TagName := Some "v1.0.0";
     Releases.TargetCommitish := Some "main";
     Releases.rrName := Some "v1.0.0";
     Releases.Body := Some "notes";
     Releases.rrDraft := Some false;
     Releases.rrPrerelease := Some false;
     Releases.GenerateReleaseNotes := Some true;
     Releases.ID := Some 42 |}.

Definition okHost : Releases.Host nat :=
  {| Releases.os_Getenv := fun _ _ => "ghp_token";
     Releases.os_ReadFile := fun _ w => (("notes", None), w);
     Releases.os_File_Close := fun _ w => (None, w);
     Releases.filepath_Base := fun _ => "app.tar.gz";
     Releases.Repositories_CreateRelease :=
       fun _ _ _ _ _ w =>
         ((Some created, Some {| Releases.StatusCode := 201 |}, None), S w);
     Releases.Repositories_UploadReleaseAsset :=
       fun _ _ _ _ _ _ _ w =>
         ((Some {| Releases.StatusCode := 422 |},
           Some (errorString "validation failed")), S w);
     Releases.rand_Uint64 := fun w => (7, w) |}.

Definition openFails (w : nat) : (option Releases.File * error) * nat :=
  ((None, Some (errorString "open dist/app.tar.gz: permission denied")), w).

(** A client whose upload returns the empty [TemporaryError{}]. *)
Definition emptyTemporaryClient : Releases.Client nat unit :=
  {| Releases.Release := fun c _ _ _ _ => ret (c, (0, None));
     Releases.UploadAssetsFile :=
       fun _ _ _ _ _ => ret (Some (TemporaryError None)) |}.

(** Flags and an environment for the preparation of the environment. *)
Definition upper (s : string) : string :=
  if String.eqb s "tag" then "TAG"
  else if String.eqb s "commitish" then "COMMITISH"
  else s.

Definition flags0 : list Main.Flag :=
  [ {| Main.flag_Name := "commitish"; Main.flag_Value := "" |};
    {| Main.flag_Name := "tag"; Main.flag_Value := "v1.0.0" |} ].

Definition env0 : Main.Env :=
  fun k => if String.eqb k "GITHUB_TOKEN" then "ghp_token" else "".

(** A host whose world is the process environment. *)
Definition envHost : Releases.Host Main.Env :=
  {| Releases.os_Getenv := fun k env => Main.Getenv env k;
     Releases.os_ReadFile := fun _ w => (("", None), w);
     Releases.os_File_Close := fun _ w => (None, w);
     Releases.filepath_Base := fun p => p;
     Releases.Repositories_CreateRelease :=
       fun _ _ _ _ _ w => ((None, None, Some conn_reset), w);
     Releases.Repositories_UploadReleaseAsset :=
       fun _ _ _ _ _ _ _ w => ((None, Some conn_reset), w);
     Releases.rand_Uint64 := fun w => (1, w) |}.

(** A run in which everything succeeds but the closing of the
    application. *)
Definition closeFailsRun : Main.Calls :=
  {| Main.PreInit := Returns None;
     Main.Parse := Returns None;
     Main.Timeout := 1800000000000;
     Main.Init := Returns None;
     Main.Run := fun _ => Returns None;
     Main.Close := Returns (Some (errorString "close: device busy")) |}.

(** A run in which the flags do not parse. *)
Definition parseFailsRun : Main.Calls :=
  {| Main.PreInit := Returns None;
     Main.Parse := Returns (Some (errorString "flag provided but not defined: -x"));
     Main.Timeout := 0;
     Main.Init := Returns None;
     Main.Run := fun _ => Returns None;
     Main.Close := Returns (Some (errorString "close: device busy")) |}.

(** A host whose service answers a release creation with status 422 and
    the library's error for it. *)
Definition validation_failed : errval :=
  errorString "POST https://api.github.com/repos/gohugoio/hugoreleaser/releases: 422 Validation Failed".

Definition rejectingHost : Releases.Host nat :=
  {| Releases.os_Getenv := fun _ _ => "ghp_token";
     Releases.os_ReadFile := fun _ w => (("notes", None), w);
     Releases.os_File_Close := fun _ w => (None, w);
     Releases.filepath_Base := fun _ => "app.tar.gz";
     Releases.Repositories_CreateRelease :=
       fun _ _ _ _ _ w =>
         ((None, Some {| Releases.StatusCode := 422 |}, Some validation_failed),
          S w);
     Releases.Repositories_UploadReleaseAsset :=
       fun _ _ _ _ _ _ _ w => ((None, Some conn_reset), S w);
     Releases.rand_Uint64 := fun w => (7, w) |}.




End Examples.


(* ===================================================================== *)
(** * Part II: properties *)
(* ===================================================================== *)

(** ** The command pipeline *)

Section PipelineFacts.
Import Go Allcmd.
Context {W Args : Type}.
Implicit Types (hs pre post : list (CommandHandler W Args)) (w : W).
Local Open Scope list_scope.

(** One turn of a loop whose handler call is known by an equation. *)
Ltac loop_turn E :=
  unfold bind, extern; cbn [world calls]; rewrite E.

Lemma initLoop_all_succeed hs : forall i w w' tr,
  InitsSucceed hs w w' ->
  initLoop i hs (mkSt w tr)
  = (Returns None, mkSt w' (tr ++ map CallInit (seq i (List.length hs)))).
Proof.
  induction hs as [|h hs IH]; intros i w w' tr Hs; inversion Hs; subst.
  - cbn. now rewrite app_nil_r.
  - cbn [initLoop].
    match goal with E : Init h w = _ |- _ => loop_turn E end.
    rewrite (IH (S i) _ _ _ ltac:(eassumption)).
    cbn [List.length seq map]. now rewrite <- app_assoc.
Qed.

Lemma initLoop_first_failure pre : forall h post i w w1 w2 e tr,
  InitsSucceed pre w w1 ->
  Init h w1 = (Returns (Some e), w2) ->
  initLoop i (pre ++ h :: post) (mkSt w tr)
  = (Returns (Some e),
     mkSt w2 (tr ++ map CallInit (seq i (S (List.length pre))))).
Proof.
  induction pre as [|p pre IH]; intros h post i w w1 w2 e tr Hs Hf;
    inversion Hs; subst.
  - cbn [app initLoop]. now loop_turn Hf.
  - cbn [app initLoop].
    match goal with E : Init p w = _ |- _ => loop_turn E end.
    rewrite (IH h post (S i) _ _ _ e _ ltac:(eassumption) Hf).
    cbn [List.length seq map]. now rewrite <- app_assoc.
Qed.

Lemma execLoop_first_failure ctx args pre : forall h post i w w1 w2 e tr,
  ExecsSucceed ctx args pre w w1 ->
  Exec h ctx args w1 = (Returns (Some e), w2) ->
  execLoop ctx args i (pre ++ h :: post) (mkSt w tr)
  = (Returns (Some e),
     mkSt w2 (tr ++ map CallExec (seq i (S (List.length pre))))).
Proof.
  induction pre as [|p pre IH]; intros h post i w w1 w2 e tr Hs Hf;
    inversion Hs; subst.
  - cbn [app execLoop]. now loop_turn Hf.
  - cbn [app execLoop].
    match goal with E : Exec p ctx args w = _ |- _ => loop_turn E end.
    rewrite (IH h post (S i) _ _ _ e _ ltac:(eassumption) Hf).
    cbn [List.length seq map]. now rewrite <- app_assoc.
Qed.

(** For a slice of any length: when the handler after [pre] is the first
    whose [Init] fails, the calls made are the [Init]s of positions
    [0 .. length pre] and nothing else. *)
Lemma pipeline_init_failure ctx args pre h post w w1 w2 e :
  InitsSucceed pre w w1 ->
  Init h w1 = (Returns (Some e), w2) ->
  run (pipeline ctx args (pre ++ h :: post)) w
  = (Returns (Some e), mkSt w2 (map CallInit (seq 0 (S (List.length pre))))).
Proof.
  intros Hs Hf. unfold run, pipeline, bind.
  now rewrite (initLoop_first_failure pre h post 0 w w1 w2 e [] Hs Hf).
Qed.

(** For a slice of any length: when every [Init] succeeds and the handler
    after [pre] is the first whose [Exec] fails, the calls made are all
    the [Init]s, then the [Exec]s of positions [0 .. length pre]. *)
Lemma pipeline_exec_failure ctx args pre h post w w1 w2 w3 e :
  InitsSucceed (pre ++ h :: post) w w1 ->
  ExecsSucceed ctx args pre w1 w2 ->
  Exec h ctx args w2 = (Returns (Some e), w3) ->
  run (pipeline ctx args (pre ++ h :: post)) w
  = (Returns (Some e),
     mkSt w3 (map CallInit (seq 0 (List.length (pre ++ h :: post)))
              ++ map CallExec (seq 0 (S (List.length pre))))).
Proof.
  intros Hi Hs Hf. unfold run, pipeline, bind.
  rewrite (initLoop_all_succeed _ 0 w w1 [] Hi). cbn [app].
  now rewrite (execLoop_first_failure ctx args pre h post 0 w1 w2 w3 e _ Hs Hf).
Qed.

End PipelineFacts.

Section AllFacts.
Import Go Allcmd.
Context {W Args LevelLogger : Type}.
Variable WithField : LevelLogger -> string -> string -> LevelLogger.
Local Open Scope list_scope.

Lemma all_Init_handlers (a a' : all W Args LevelLogger) err :
  all_Init WithField a = Returns (a', err) ->
  commandHandlers a' = commandHandlers a /\ err = None.
Proof.
  unfold all_Init. destruct (InfoLog (core a)); intros E; inversion E; subst.
  now split.
Qed.

Lemma all_Init_returns (a : all W Args LevelLogger) l :
  InfoLog (core a) = Some l ->
  exists a', all_Init WithField a = Returns (a', None).
Proof. intros E. unfold all_Init. rewrite E. eauto. Qed.

(** C1. In [all.Exec], whose handlers are the builder, the archivist and
    the releaser in this order: when the handlers before position [k]
    initialize without error and [Init] of the handler at position [k]
    returns the error [e], then [Exec] returns [e], and the calls it has
    made are exactly [Init] on the positions [0], ..., [k], in this order.
    So [Init] was called on no later handler and [Exec] on no handler at
    all. *)
Theorem all_Exec_init_failure
    (a : all W Args LevelLogger) ctx args l pre h post w w1 w2 e :
  InfoLog (core a) = Some l ->
  commandHandlers a = pre ++ h :: post ->
  InitsSucceed pre w w1 ->
  Init h w1 = (Returns (Some e), w2) ->
  exists a',
    run (all_Exec WithField a ctx args) w
    = (Returns (a', Some e),
       mkSt w2 (map CallInit (seq 0 (S (List.length pre))))).
Proof.
  intros Hl Hhs Hs Hf.
  destruct (all_Init_returns a l Hl) as [a' Ha].
  destruct (all_Init_handlers _ _ _ Ha) as [Hh _].
  exists a'. unfold run, all_Exec. rewrite Ha, Hh, Hhs.
  unfold bind at 1.
  pose proof (pipeline_init_failure ctx args pre h post w w1 w2 e Hs Hf) as P.
  unfold run in P. now rewrite P.
Qed.

(** C2. In [all.Exec]: when all three handlers initialize without error,
    the handlers before position [k] execute without error and [Exec] of
    the handler at position [k] returns the error [e], then [Exec] returns
    this very [e], and the calls it has made are [Init] on every position,
    then [Exec] on the positions [0], ..., [k], in this order: no handler
    after [k] is executed. *)
Theorem all_Exec_exec_failure
    (a : all W Args LevelLogger) ctx args l pre h post w w1 w2 w3 e :
  InfoLog (core a) = Some l ->
  commandHandlers a = pre ++ h :: post ->
  InitsSucceed (commandHandlers a) w w1 ->
  ExecsSucceed ctx args pre w1 w2 ->
  Exec h ctx args w2 = (Returns (Some e), w3) ->
  exists a',
    run (all_Exec WithField a ctx args) w
    = (Returns (a', Some e),
       mkSt w3 (map CallInit (seq 0 (List.length (commandHandlers a)))
                ++ map CallExec (seq 0 (S (List.length pre))))).
Proof.
  intros Hl Hhs Hi Hs Hf.
  destruct (all_Init_returns a l Hl) as [a' Ha].
  destruct (all_Init_handlers _ _ _ Ha) as [Hh _].
  exists a'. unfold run, all_Exec. rewrite Ha, Hh, Hhs.
  unfold bind at 1. rewrite Hhs in Hi.
  pose proof (pipeline_exec_failure ctx args pre h post w w1 w2 w3 e Hi Hs Hf) as P.
  unfold run in P. now rewrite P.
Qed.

End AllFacts.

Lemma all_Exec_init_failure_witness :
  exists a',
    Go.run (Allcmd.all_Exec Examples.withField
              (Examples.mk_all Examples.okHandler
                 (Examples.initFails "archive: no settings")
                 Examples.okHandler)
              Go.Background tt) 0%nat
    = (Go.Returns (a', Some (Go.errorString "archive: no settings")),
       Go.mkSt 1%nat [Allcmd.CallInit 0; Allcmd.CallInit 1]).
Proof.
  refine (all_Exec_init_failure Examples.withField
           (Examples.mk_all Examples.okHandler
              (Examples.initFails "archive: no settings") Examples.okHandler)
           Go.Background tt tt
           [Examples.okHandler] (Examples.initFails "archive: no settings")
           [Examples.okHandler] 0%nat 1%nat 1%nat
           (Go.errorString "archive: no settings")
           eq_refl eq_refl _ eq_refl).
  eapply Allcmd.InitsSucceed_cons; [reflexivity|].
  apply Allcmd.InitsSucceed_nil.
Defined.

Lemma all_Exec_exec_failure_witness :
  exists a',
    Go.run (Allcmd.all_Exec Examples.withField
              (Examples.mk_all Examples.okHandler
                 (Examples.execFails "archive: disk full")
                 Examples.okHandler)
              Go.Background tt) 0%nat
    = (Go.Returns (a', Some (Go.errorString "archive: disk full")),
       Go.mkSt 4%nat
         [Allcmd.CallInit 0; Allcmd.CallInit 1; Allcmd.CallInit 2;
          Allcmd.CallExec 0; Allcmd.CallExec 1]).
Proof.
  refine (all_Exec_exec_failure Examples.withField
           (Examples.mk_all Examples.okHandler
              (Examples.execFails "archive: disk full") Examples.okHandler)
           Go.Background tt tt
           [Examples.okHandler] (Examples.execFails "archive: disk full")
           [Examples.okHandler] 0%nat 3%nat 4%nat 4%nat
           (Go.errorString "archive: disk full")
           eq_refl eq_refl _ _ eq_refl).
  - repeat (eapply Allcmd.InitsSucceed_cons; [reflexivity|]).
    apply Allcmd.InitsSucceed_nil.
  - eapply Allcmd.ExecsSucceed_cons; [reflexivity|].
    apply Allcmd.ExecsSucceed_nil.
Defined.


(** ** Errors *)

Section ErrorFacts.
Import Go.

Lemma errval_eqb_refl (e : errval) : errval_eqb e e = true.
Proof.
  revert e. fix IH 1. intros [s|s inner| | |[inner|]]; cbn.
  - apply String.eqb_refl.
  - now rewrite String.eqb_refl, IH.
  - reflexivity.
  - reflexivity.
  - apply IH.
  - reflexivity.
Qed.



Lemma errval_eqb_TemporaryError_zero e :
  errval_eqb e (TemporaryError None) = true <-> e = TemporaryError None.
Proof. destruct e as [| | | |[|]]; cbn; split; congruence. Qed.

(** [errors.Is] finds a target exactly when the chain reaches a value
    equal to it. *)
Lemma Is_loop_Reaches e t :
  (forall x, errval_eqb x t = true <-> x = t) ->
  Is_loop e t = true <-> Reaches e t.
Proof.
  intros Heq. split.
  - induction e as [s|s inner IH| | |o]; intros H;
      cbn [Is_loop] in H;
      try (rewrite orb_false_r in H; apply Heq in H; subst; constructor).
    apply orb_true_iff in H. destruct H as [H|H].
    + apply Heq in H. subst. constructor.
    + constructor. now apply IH.
  - induction 1 as [e|s inner t' _ IH].
    + destruct e; cbn [Is_loop]; rewrite errval_eqb_refl; reflexivity.
    + cbn [Is_loop]. rewrite (IH Heq). apply orb_true_r.
Qed.

(** A [TemporaryError] that holds an error is never matched by
    [errors.Is(err, TemporaryError{})]: the two structs differ, and the
    struct offers neither [Is] nor [Unwrap]. *)
Lemma errors_Is_TemporaryError_wrapped (e : errval) :
  errors_Is (Some (TemporaryError (Some e))) (Some (TemporaryError None)) = false.
Proof. reflexivity. Qed.

Lemma errors_Is_errorString s t :
  errors_Is (Some (errorString s)) (Some (TemporaryError t)) = false.
Proof. reflexivity. Qed.

End ErrorFacts.

(** ** The release client *)

Section ClientFacts.
Import Go Releases.
Context {W : Type} (host : Host W).
Local Open Scope list_scope.

(** C3. For every integer status, the classifier answers false (fatal)
    exactly for 422 and 400, and true (retryable) for every other
    status. *)
Theorem isTemporaryHttpStatus_spec (status : Z) :
  (isTemporaryHttpStatus status = false <-> status = 422 \/ status = 400) /\
  (isTemporaryHttpStatus status = true <-> status <> 422 /\ status <> 400).
Proof.
  unfold isTemporaryHttpStatus, StatusUnprocessableEntity, StatusBadRequest.
  destruct (Z.eqb_spec status 422), (Z.eqb_spec status 400); cbn;
    split; split; intros; try discriminate; try reflexivity; lia.
Qed.

(** C10. When the remote upload call returns an error and no response,
    [GitHubClient.UploadAssetsFile] returns that error wrapped in a
    [TemporaryError], after this one remote call; and it does so whatever
    classifier is put in the place of [isTemporaryHttpStatus], which is
    therefore not consulted. *)
Theorem UploadAssetsFile_without_response
    (c : GitHubClient) ctx settings (fh : File) id (s : St W Ev) e w' :
  let opts := {| uoName := filepath_Base host (File_Name fh) |} in
  Repositories_UploadReleaseAsset host (client c) ctx
    (RepositoryOwner settings) (Repository settings) id opts fh (world s)
  = ((None, Some e), w') ->
  let after := mkSt w' (calls s ++ [EvUploadReleaseAsset
                 (RepositoryOwner settings) (Repository settings) id opts fh]) in
  GitHubClient_UploadAssetsFile host c ctx settings (Some fh) id s
  = (Returns (Some (TemporaryError (Some e))), after) /\
  forall classify,
    UploadAssetsFile_with host classify c ctx settings (Some fh) id s
    = (Returns (Some (TemporaryError (Some e))), after).
Proof.
  intros opts H after.
  assert (G : forall classify,
    UploadAssetsFile_with host classify c ctx settings (Some fh) id s
    = (Returns (Some (TemporaryError (Some e))), after)).
  { intros classify. unfold UploadAssetsFile_with, bind, call, extern.
    fold opts. now rewrite H. }
  split; [apply G | exact G].
Qed.

(** C9. On the client [&FakeClient{}], on which [Release] was never
    called, [UploadAssetsFile] with release identifier 0 and a file that is
    not nil returns no error (and does nothing else): the recorded
    identifier starts as 0. The same holds through the [Client] interface
    for the value [NewClient] builds. *)
Theorem fresh_FakeClient_accepts_zero ctx settings (fh : File) (s : St W Ev) :
  releaseID FakeClient_zero = 0 /\
  FakeClient_UploadAssetsFile FakeClient_zero ctx settings (Some fh) 0 s
  = (Returns None, s) /\
  UploadAssetsFile (Client := ClientValue_Client host)
    (ClientFake FakeClient_zero) ctx settings (Some fh) 0 s
  = (Returns None, s).
Proof. repeat split. Qed.

End ClientFacts.

Lemma UploadAssetsFile_without_response_witness :
  Releases.GitHubClient_UploadAssetsFile Examples.testHost Examples.liveClient
    Go.Background Examples.settings0 (Some Examples.file0) 7
    (Go.mkSt 0%nat [])
  = (Go.Returns (Some (Go.TemporaryError (Some Examples.conn_reset))),
     Go.mkSt 1%nat
       [Releases.EvUploadReleaseAsset "gohugoio" "hugoreleaser" 7
          {| Releases.uoName := "app.tar.gz" |} Examples.file0]).
Proof.
  exact (proj1 (UploadAssetsFile_without_response Examples.testHost
                  Examples.liveClient Go.Background Examples.settings0
                  Examples.file0 7 (Go.mkSt 0%nat []) Examples.conn_reset
                  1%nat eq_refl)).
Defined.

Section DryRunFacts.
Import Go Releases.
Context {W : Type} (host : Host W).
Local Open Scope list_scope.

Lemma land_rngMask_range (x : Z) : 0 <= Z.land x rngMask < 2 ^ 63.
Proof.
  change rngMask with (Z.ones 63).
  rewrite Z.land_ones by lia. apply Z.mod_pos_bound. lia.
Qed.

Lemma FakeClient_Release_eq (c : FakeClient) ctx tag cm settings (s : St W Ev) :
  FakeClient_Release host c ctx tag cm settings s
  = (Returns ({| releaseID := Z.land (fst (rand_Uint64 host (world s))) rngMask |},
              (Z.land (fst (rand_Uint64 host (world s))) rngMask, None)),
     mkSt (snd (rand_Uint64 host (world s)))
          (calls s ++ [EvPrintfFakeRelease tag cm settings; EvRandInt63])).
Proof.
  unfold FakeClient_Release, rand_Int63, bind, call, extern, ret.
  cbn [world calls]. destruct (rand_Uint64 host (world s)) as [x w'].
  cbn [fst snd world calls]. now rewrite <- app_assoc.
Qed.

(** C6, as the code has it. [FakeClient.Release] sends nothing to the
    remote service (it prints a line and draws from the random source),
    returns without error an identifier that is the low 63 bits of the
    source's output, hence in the range 0 .. 2^63 - 1 (it can be 0), and
    records it in the client. On the client so left,
    [UploadAssetsFile] touches nothing and returns the identifier-mismatch
    error exactly when the identifier passed differs from the recorded
    one; it returns an error whenever the file is nil; and it returns no
    error when the identifier matches and the file is not nil. *)
Theorem FakeClient_Release_then_upload
    (c : FakeClient) ctx tag cm settings (s : St W Ev) :
  let id := Z.land (fst (rand_Uint64 host (world s))) rngMask in
  let c' := {| releaseID := id |} in
  let made := [EvPrintfFakeRelease tag cm settings; EvRandInt63] in
  FakeClient_Release host c ctx tag cm settings s
  = (Returns (c', (id, None)),
     mkSt (snd (rand_Uint64 host (world s))) (calls s ++ made)) /\
  existsb is_network made = false /\
  0 <= id < 2 ^ 63 /\
  releaseID c' = id /\
  forall ctx2 settings2 (f : option File) id2 (s2 : St W Ev),
  exists r,
    FakeClient_UploadAssetsFile c' ctx2 settings2 f id2 s2 = (Returns r, s2) /\
    (r = Some (errorString
           ("fake: releaseID mismatch: " ++ fmt_d id ++ " != " ++ fmt_d id2))
     <-> id2 <> id) /\
    (f = None -> r <> None) /\
    (id2 = id -> f = None -> r = Some (errorString "fake: nil file")) /\
    (id2 = id -> f <> None -> r = None).
Proof.
  intros id c' made. split; [apply FakeClient_Release_eq|].
  split; [reflexivity|]. split; [apply land_rngMask_range|].
  split; [reflexivity|].
  intros ctx2 settings2 f id2 s2. unfold FakeClient_UploadAssetsFile.
  cbn [releaseID c']. destruct (Z.eqb_spec id id2) as [E|N]; cbn [negb].
  - destruct f as [fh|]; cbn [isNil]; eexists; (split; [reflexivity|]).
    + repeat split; intros; try congruence; try discriminate.
    + repeat split; intros; try congruence; try discriminate.
  - eexists; split; [reflexivity|].
    repeat split; intros; try congruence; try discriminate.
Qed.

End DryRunFacts.

(** C6, as the spec words it, fails: with a random source whose next
    output is 0, [FakeClient.Release] fabricates, records and returns the
    identifier 0. *)
Lemma FakeClient_Release_may_return_zero :
  Go.run (Releases.FakeClient_Release Examples.testHost
            Releases.FakeClient_zero Go.Background "v1.0.0" "main"
            Examples.settings0) 0%nat
  = (Go.Returns ({| Releases.releaseID := 0 |}, (0, None)),
     Go.mkSt 0%nat
       [Releases.EvPrintfFakeRelease "v1.0.0" "main" Examples.settings0;
        Releases.EvRandInt63]) /\
  ~ (forall (host : Releases.Host nat) c ctx tag cm settings s c' id err s',
       Releases.FakeClient_Release host c ctx tag cm settings s
       = (Go.Returns (c', (id, err)), s') ->
       id <> 0).
Proof.
  split; [reflexivity|].
  intros H.
  exact (H Examples.testHost Releases.FakeClient_zero Go.Background
           "v1.0.0" "main" Examples.settings0 (Go.mkSt 0%nat [])
           _ 0 _ _ eq_refl eq_refl).
Qed.

Section FactoryFacts.
Import Go Releases.
Context {W : Type} (host : Host W).
Local Open Scope list_scope.

Lemma Type_eqb_GitHub typ : Type_eqb typ GitHub = true <-> typ = GitHub.
Proof. destruct typ; cbn; split; congruence. Qed.

(** C7. [NewClient] never changes the world nor makes a call (so it sends
    nothing), and
    - returns an error and no client when the type is not [GitHub];
    - returns an error and no client when the type is [GitHub] and the
      variable [GITHUB_TOKEN] is empty or unset;
    - returns the fake client when the token is [faketoken];
    - returns the GitHub client holding the token otherwise. *)
Theorem NewClient_cases ctx typ (s : St W Ev) :
  let token := os_Getenv host tokenEnvVar (world s) in
  (typ <> GitHub ->
   NewClient host ctx typ s
   = (Returns (None, Some (errorString "github: only github is supported for now")), s)) /\
  (typ = GitHub -> token = "" ->
   NewClient host ctx typ s
   = (Returns (None, Some (errorString
        ("github: missing " ++ fmt_q "GITHUB_TOKEN" ++ " env var"))), s)) /\
  (typ = GitHub -> token = "faketoken" ->
   NewClient host ctx typ s
   = (Returns (Some (ClientFake FakeClient_zero), None), s)) /\
  (typ = GitHub -> token <> "" -> token <> "faketoken" ->
   NewClient host ctx typ s
   = (Returns (Some (ClientGitHub
        {| client := {| AccessToken := token; clientCtx := ctx |} |}), None), s)).
Proof.
  intros token. unfold NewClient, bind, peek, ret.
  change (os_Getenv host tokenEnvVar (world s)) with token.
  repeat split.
  - intros N. destruct (Type_eqb typ GitHub) eqn:E; [|reflexivity].
    apply Type_eqb_GitHub in E. contradiction.
  - intros -> E. cbn [Type_eqb negb]. fold token. now rewrite E.
  - intros -> E. cbn [Type_eqb negb]. fold token. now rewrite E.
  - intros -> N1 N2. cbn [Type_eqb negb]. fold token.
    destruct (String.eqb_spec token ""); [contradiction|].
    destruct (String.eqb_spec token "faketoken"); [contradiction|].
    reflexivity.
Qed.

End FactoryFacts.

Section LiveFacts.
Import Go Releases.
Context {W : Type} (host : Host W).
Local Open Scope list_scope.

(** An error made outside this package fails the retry test. *)
Lemma foreign_not_retryable (e : errval) :
  foreign e = true -> retryable (Some e) = false.
Proof.
  unfold retryable. cbn [isNil negb andb errors_Is].
  induction e as [s0|s0 inner IH| | |o]; cbn [foreign Is_loop errval_eqb orb];
    auto; discriminate.
Qed.

(** C5. In [GitHubClient.Release]:
    - with a release-notes file name configured, the first thing done is
      to read that file; when the read fails, its error is returned at
      once, and nothing is sent to the remote service;
    - when the read succeeds the file's content is the body submitted, and
      with no file name configured the body is empty;
    - when the remote call returns no error and a response whose status is
      not 201, the result is the identifier 0 and a plain error naming the
      status, which is not a [TemporaryError] and which
      [errors.Is(err, TemporaryError{})] rejects;
    - when the remote call returns an error, with a response of whatever
      status or with none, the result is the identifier 0 and that very
      error, with nothing wrapped around it; as the library's error is
      not made of a [TemporaryError], the result is none and the retry
      test rejects it. *)
Theorem GitHubClient_Release_failures
    (c : GitHubClient) ctx tagName committish settings (s : St W Ev) :
  let name := ReleaseNotesFilename settings in
  let read := mkSt (snd (os_ReadFile host name (world s)))
                   (calls s ++ [EvReadFile name]) in
  (name <> "" -> forall e,
   snd (fst (os_ReadFile host name (world s))) = Some e ->
   GitHubClient_Release host c ctx tagName committish settings s
   = (Returns (0, Some e), read) /\
   existsb is_network [EvReadFile name] = false) /\
  (name <> "" ->
   snd (fst (os_ReadFile host name (world s))) = None ->
   GitHubClient_Release host c ctx tagName committish settings s
   = Release_submit host c ctx tagName committish settings
       (fst (fst (os_ReadFile host name (world s)))) read) /\
  (name = "" ->
   GitHubClient_Release host c ctx tagName committish settings s
   = Release_submit host c ctx tagName committish settings "" s) /\
  (forall body (s1 : St W Ev) rel rsp w',
   Repositories_CreateRelease host (client c) ctx (RepositoryOwner settings)
     (Repository settings) (release_request tagName committish settings body)
     (world s1)
   = ((rel, Some rsp, None), w') ->
   StatusCode rsp <> 201 ->
   let err := errorString
                ("github: unexpected status code: " ++ fmt_d (StatusCode rsp)) in
   Release_submit host c ctx tagName committish settings body s1
   = (Returns (0, Some err),
      mkSt w' (calls s1 ++ [EvCreateRelease (RepositoryOwner settings)
                 (Repository settings)
                 (release_request tagName committish settings body)])) /\
   (forall inner, err <> TemporaryError inner) /\
   retryable (Some err) = false) /\
  (forall body (s1 : St W Ev) rel resp e w',
   Repositories_CreateRelease host (client c) ctx (RepositoryOwner settings)
     (Repository settings) (release_request tagName committish settings body)
     (world s1)
   = ((rel, resp, Some e), w') ->
   Release_submit host c ctx tagName committish settings body s1
   = (Returns (0, Some e),
      mkSt w' (calls s1 ++ [EvCreateRelease (RepositoryOwner settings)
                 (Repository settings)
                 (release_request tagName committish settings body)])) /\
   (foreign e = true ->
    (forall inner, e <> TemporaryError inner) /\
    retryable (Some e) = false)).
Proof.
  intros name read. split; [|split; [|split; [|split]]].
  - intros Hn e He. split; [|reflexivity].
    unfold GitHubClient_Release. fold name.
    destruct (String.eqb_spec name ""); [contradiction|]. cbn [negb].
    unfold bind, call, extern. subst read.
    destruct (os_ReadFile host name (world s)) as [[b er] w1].
    cbn [fst snd] in *. subst er. reflexivity.
  - intros Hn He. unfold GitHubClient_Release. fold name.
    destruct (String.eqb_spec name ""); [contradiction|]. cbn [negb].
    unfold bind at 1. unfold call, extern. subst read.
    destruct (os_ReadFile host name (world s)) as [[b er] w1].
    cbn [fst snd] in *. subst er. reflexivity.
  - intros E. unfold GitHubClient_Release. fold name. rewrite E. reflexivity.
  - intros body s1 rel rsp w' H Hs err. split; [|split].
    + unfold Release_submit, bind, call, extern.
      cbv zeta. rewrite H. unfold StatusCreated.
      destruct (Z.eqb_spec (StatusCode rsp) 201); [contradiction|]. reflexivity.
    + intros inner. discriminate.
    + reflexivity.
  - intros body s1 rel resp e w' H. split.
    + unfold Release_submit, bind, call, extern.
      cbv zeta. rewrite H. reflexivity.
    + intros F. split; [|now apply foreign_not_retryable].
      intros inner ->. discriminate.
Qed.

End LiveFacts.

Lemma GitHubClient_Release_failures_witness :
  Go.run (Releases.GitHubClient_Release Examples.testHost Examples.liveClient
            Go.Background "v1.0.0" "main" Examples.settings0) 0%nat
  = (Go.Returns (0, Some Examples.no_notes),
     Go.mkSt 0%nat [Releases.EvReadFile "notes.md"]) /\
  Go.run (Releases.GitHubClient_Release Examples.testHost Examples.liveClient
            Go.Background "v1.0.0" "main" Examples.settings_no_notes) 0%nat
  = (Go.Returns (0, Some (Go.errorString "github: unexpected status code: 200")),
     Go.mkSt 1%nat
       [Releases.EvCreateRelease "gohugoio" "hugoreleaser"
          (Releases.release_request "v1.0.0" "main" Examples.settings_no_notes "")]) /\
  Go.run (Releases.GitHubClient_Release Examples.rejectingHost
            Examples.liveClient Go.Background "v1.0.0" "main"
            Examples.settings_no_notes) 0%nat
  = (Go.Returns (0, Some Examples.validation_failed),
     Go.mkSt 1%nat
       [Releases.EvCreateRelease "gohugoio" "hugoreleaser"
          (Releases.release_request "v1.0.0" "main" Examples.settings_no_notes "")]) /\
  Releases.retryable (Some Examples.validation_failed) = false.
Proof.
  destruct (GitHubClient_Release_failures Examples.testHost
              Examples.liveClient Go.Background "v1.0.0" "main"
              Examples.settings0 (Go.mkSt 0%nat [])) as [Hread _].
  destruct (GitHubClient_Release_failures Examples.testHost
              Examples.liveClient Go.Background "v1.0.0" "main"
              Examples.settings_no_notes (Go.mkSt 0%nat []))
    as [_ [_ [Hnone [Hstatus _]]]].
  destruct (GitHubClient_Release_failures Examples.rejectingHost
              Examples.liveClient Go.Background "v1.0.0" "main"
              Examples.settings_no_notes (Go.mkSt 0%nat []))
    as [_ [_ [Hnone' [_ Herr]]]].
  split; [|split; [|split]].
  - refine (proj1 (Hread _ Examples.no_notes eq_refl)). discriminate.
  - unfold Go.run. rewrite (Hnone eq_refl).
    refine (proj1 (Hstatus "" (Go.mkSt 0%nat []) None
                     {| Releases.StatusCode := 200 |} 1%nat eq_refl _)).
    cbn. lia.
  - unfold Go.run. rewrite (Hnone' eq_refl).
    exact (proj1 (Herr "" (Go.mkSt 0%nat []) None
                    (Some {| Releases.StatusCode := 422 |})
                    Examples.validation_failed 1%nat eq_refl)).
  - exact (proj2 (proj2 (Herr "" (Go.mkSt 0%nat []) None
                    (Some {| Releases.StatusCode := 422 |})
                    Examples.validation_failed 1%nat eq_refl) eq_refl)).
Defined.


Section AttemptFacts.
Import Go Releases.
Context {W : Type} (host : Host W) {C : Type} {cl : Client W C}.
Local Open Scope list_scope.

(** The retry condition holds of an error exactly when unwrapping it
    leads to the empty [TemporaryError{}]. *)
Lemma retryable_true_iff (err : error) :
  retryable err = true <->
  exists e, err = Some e /\ Reaches e (TemporaryError None).
Proof.
  unfold retryable. destruct err as [e|]; cbn [isNil negb andb errors_Is].
  - rewrite (Is_loop_Reaches e _ errval_eqb_TemporaryError_zero).
    split; [eauto|]. now intros [e' [[= <-] R]].
  - split; [discriminate|]. now intros [e' [[=] _]].
Qed.

Lemma retryable_TemporaryError_wrapped (e : errval) :
  retryable (Some (TemporaryError (Some e))) = false.
Proof. reflexivity. Qed.

Lemma File_Close_returns (f : option File) (s : St W Ev) :
  exists ce w', File_Close host f s = (Returns ce, mkSt w' (calls s ++ [EvClose f])).
Proof.
  unfold File_Close, call, extern. destruct f as [h|].
  - destruct (os_File_Close host h (world s)) as [ce w']. eauto.
  - eauto.
Qed.

(** The parts of the attempt that are as the specification says: the file
    is opened anew by [openFile]; when that fails the attempt ends with
    this error, not retryable; otherwise the upload runs on the file just
    opened, and whether it returns or panics, [Close] is called on that
    file as the last thing; the attempt returns the upload's error, and it
    is flagged retryable exactly when [retryable] holds of it. *)
Lemma uploadAttempt_open_failure ctx (c : C) settings id openFile
    (s : St W Ev) f e w1 :
  openFile (world s) = ((f, Some e), w1) ->
  uploadAttempt host ctx c settings id openFile s
  = (Returns (Some e, false), mkSt w1 (calls s ++ [EvOpenFile])).
Proof.
  intros H. unfold uploadAttempt, bind, call, extern. now rewrite H.
Qed.

Lemma uploadAttempt_upload_returns ctx (c : C) settings id openFile
    (s s2 : St W Ev) f w1 err :
  openFile (world s) = ((f, None), w1) ->
  UploadAssetsFile c ctx settings f id (mkSt w1 (calls s ++ [EvOpenFile]))
  = (Returns err, s2) ->
  exists w3,
    uploadAttempt host ctx c settings id openFile s
    = (Returns (err, retryable err), mkSt w3 (calls s2 ++ [EvClose f])).
Proof.
  intros Ho Hu. destruct (File_Close_returns f s2) as [ce [w3 Hc]].
  exists w3. unfold uploadAttempt, bind, call, extern. rewrite Ho.
  unfold defer. rewrite Hu.
  destruct (retryable err); unfold ret; now rewrite Hc.
Qed.

Lemma uploadAttempt_upload_panics ctx (c : C) settings id openFile
    (s s2 : St W Ev) f w1 r :
  openFile (world s) = ((f, None), w1) ->
  UploadAssetsFile c ctx settings f id (mkSt w1 (calls s ++ [EvOpenFile]))
  = (Panics r, s2) ->
  exists w3,
    uploadAttempt host ctx c settings id openFile s
    = (Panics r, mkSt w3 (calls s2 ++ [EvClose f])).
Proof.
  intros Ho Hu. destruct (File_Close_returns f s2) as [ce [w3 Hc]].
  exists w3. unfold uploadAttempt, bind, call, extern. rewrite Ho.
  unfold defer. rewrite Hu. now rewrite Hc.
Qed.

(** C4, where the code departs from it. When the file opens and the
    upload returns an error wrapped in a [TemporaryError], the attempt
    closes the file and returns that error flagged NOT retryable:
    [errors.Is(err, TemporaryError{})] compares the wrapper with the empty
    struct and finds them different. *)
Theorem uploadAttempt_TemporaryError_not_retried ctx (c : C) settings id
    openFile (s s2 : St W Ev) f w1 e :
  openFile (world s) = ((f, None), w1) ->
  UploadAssetsFile c ctx settings f id (mkSt w1 (calls s ++ [EvOpenFile]))
  = (Returns (Some (TemporaryError (Some e))), s2) ->
  exists w3,
    uploadAttempt host ctx c settings id openFile s
    = (Returns (Some (TemporaryError (Some e)), false),
       mkSt w3 (calls s2 ++ [EvClose f])).
Proof.
  intros Ho Hu.
  destruct (uploadAttempt_upload_returns ctx c settings id openFile
              s s2 f w1 _ Ho Hu) as [w3 H].
  exists w3. exact H.
Qed.

(** The retry executor of the specification makes no second attempt
    after an attempt that is flagged not retryable. *)
Lemma withRetries_stops_on_fatal more (f : M W Ev (error * bool)) s e s' :
  f s = (Returns (Some e, false), s') ->
  withRetries more f s = (Returns (Some e), s').
Proof.
  intros H. destruct more; cbn [withRetries]; unfold bind; now rewrite H.
Qed.

End AttemptFacts.

Lemma uploadAttempt_TemporaryError_not_retried_witness :
  exists w3,
    Releases.uploadAttempt (cl := Releases.GitHubClient_Client Examples.testHost)
      Examples.testHost Go.Background Examples.liveClient
      Examples.settings0 7 Examples.openFile0 (Go.mkSt 0%nat [])
    = (Go.Returns (Some (Go.TemporaryError (Some Examples.conn_reset)), false),
       Go.mkSt w3
         ([Releases.EvOpenFile;
           Releases.EvUploadReleaseAsset "gohugoio" "hugoreleaser" 7
             {| Releases.uoName := "app.tar.gz" |} Examples.file0]
          ++ [Releases.EvClose (Some Examples.file0)])%list).
Proof.
  exact (uploadAttempt_TemporaryError_not_retried
           (cl := Releases.GitHubClient_Client Examples.testHost)
           Examples.testHost Go.Background Examples.liveClient Examples.settings0 7
           Examples.openFile0 (Go.mkSt 0%nat [])
           (Go.mkSt 1%nat
              [Releases.EvOpenFile;
               Releases.EvUploadReleaseAsset "gohugoio" "hugoreleaser" 7
                 {| Releases.uoName := "app.tar.gz" |} Examples.file0])
           (Some Examples.file0) 0%nat Examples.conn_reset
           eq_refl eq_refl).
Defined.

(** On that input the whole of [UploadAssetsFileWithRetries], allowed
    eleven further attempts, makes one attempt and gives up. *)
Lemma UploadAssetsFileWithRetries_gives_up :
  Go.run (Releases.UploadAssetsFileWithRetries
            (cl := Releases.GitHubClient_Client Examples.testHost)
            Examples.testHost 11
            Go.Background Examples.liveClient Examples.settings0 7
            Examples.openFile0) 0%nat
  = (Go.Returns (Some (Go.TemporaryError (Some Examples.conn_reset))),
     Go.mkSt 1%nat
       [Releases.EvOpenFile;
        Releases.EvUploadReleaseAsset "gohugoio" "hugoreleaser" 7
          {| Releases.uoName := "app.tar.gz" |} Examples.file0;
        Releases.EvClose (Some Examples.file0)]).
Proof. reflexivity. Qed.

(** ** The top-level run *)

Section MainFacts.
Import Go Main.
Variable Duration_String : Z -> string.




End MainFacts.



(* ===================================================================== *)
(** * Part III: further properties of the same code *)
(* ===================================================================== *)

(** ** The pipeline under arbitrary handlers *)

Section PipelineShape.
Import Go Allcmd.
Context {W Args : Type}.
Implicit Types (hs : list (CommandHandler W Args)) (s : St W Ev).
Local Open Scope list_scope.

Lemma initLoop_calls hs : forall i s,
  exists n,
    calls (snd (initLoop i hs s)) = calls s ++ map CallInit (seq i n) /\
    (n <= List.length hs)%nat /\
    (fst (initLoop i hs s) = Returns None -> n = List.length hs).
Proof.
  induction hs as [|h hs IH]; intros i s.
  - exists 0%nat. cbn. rewrite app_nil_r. auto.
  - cbn [initLoop]. unfold bind, extern.
    destruct (Init h (world s)) as [[[e|]|r] w'].
    + exists 1%nat. cbn. repeat split; [lia | discriminate].
    + destruct (IH (S i) (mkSt w' (calls s ++ [CallInit i]))) as [n [Hc [Hn Hr]]].
      exists (S n). rewrite Hc. cbn [calls seq map List.length].
      rewrite <- app_assoc. repeat split; [lia | intros E; f_equal; auto].
    + exists 1%nat. cbn. repeat split; [lia | discriminate].
Qed.

Lemma execLoop_calls ctx args hs : forall i s,
  exists n,
    calls (snd (execLoop ctx args i hs s))
    = calls s ++ map CallExec (seq i n) /\
    (n <= List.length hs)%nat.
Proof.
  induction hs as [|h hs IH]; intros i s.
  - exists 0%nat. cbn. rewrite app_nil_r. auto.
  - cbn [execLoop]. unfold bind, extern.
    destruct (Exec h ctx args (world s)) as [[[e|]|r] w'].
    + exists 1%nat. cbn. split; [reflexivity | lia].
    + destruct (IH (S i) (mkSt w' (calls s ++ [CallExec i]))) as [n [Hc Hn]].
      exists (S n). rewrite Hc. cbn [calls seq map List.length].
      rewrite <- app_assoc. split; [reflexivity | lia].
    + exists 1%nat. cbn. split; [reflexivity | lia].
Qed.

Lemma pipeline_calls ctx args hs s :
  exists i j,
    calls (snd (pipeline ctx args hs s))
    = calls s ++ map CallInit (seq 0 i) ++ map CallExec (seq 0 j) /\
    (i <= List.length hs)%nat /\ (j <= List.length hs)%nat /\
    (0 < j -> i = List.length hs)%nat.
Proof.
  unfold pipeline, bind.
  destruct (initLoop_calls hs 0 s) as [i [Hc [Hi Hr]]].
  destruct (initLoop 0 hs s) as [[[e|]|r] s1] eqn:E; cbn [fst snd] in *.
  - exists i, 0%nat. cbn. rewrite app_nil_r. repeat split; [assumption| lia | lia | lia].
  - destruct (execLoop_calls ctx args hs 0 s1) as [j [Hd Hj]].
    exists i, j. rewrite Hd, Hc, <- app_assoc.
    repeat split; [lia | lia | auto].
  - exists i, 0%nat. cbn. rewrite app_nil_r. repeat split; [assumption| lia | lia | lia].
Qed.

(** What the first loop did when it ended without error, and where an
    error it returns comes from. *)
Lemma initLoop_None_inv hs : forall i s s',
  initLoop i hs s = (Returns None, s') ->
  InitsSucceed hs (world s) (world s') /\
  calls s' = calls s ++ map CallInit (seq i (List.length hs)).
Proof.
  induction hs as [|h hs IH]; intros i s s'.
  - cbn. intros [= <-]. split; [constructor | now rewrite app_nil_r].
  - cbn [initLoop]. unfold bind, extern.
    destruct (Init h (world s)) as [[[e|]|r] w'] eqn:E; try discriminate.
    intros H. destruct (IH _ _ _ H) as [Hs Hc]. cbn [world calls] in *.
    split; [econstructor; eassumption|].
    rewrite Hc. cbn [seq map List.length]. now rewrite <- app_assoc.
Qed.

Lemma execLoop_None_inv ctx args hs : forall i s s',
  execLoop ctx args i hs s = (Returns None, s') ->
  ExecsSucceed ctx args hs (world s) (world s') /\
  calls s' = calls s ++ map CallExec (seq i (List.length hs)).
Proof.
  induction hs as [|h hs IH]; intros i s s'.
  - cbn. intros [= <-]. split; [constructor | now rewrite app_nil_r].
  - cbn [execLoop]. unfold bind, extern.
    destruct (Exec h ctx args (world s)) as [[[e|]|r] w'] eqn:E; try discriminate.
    intros H. destruct (IH _ _ _ H) as [Hs Hc]. cbn [world calls] in *.
    split; [econstructor; eassumption|].
    rewrite Hc. cbn [seq map List.length]. now rewrite <- app_assoc.
Qed.

Lemma execLoop_all_succeed ctx args hs : forall i w w' tr,
  ExecsSucceed ctx args hs w w' ->
  execLoop ctx args i hs (mkSt w tr)
  = (Returns None, mkSt w' (tr ++ map CallExec (seq i (List.length hs)))).
Proof.
  induction hs as [|h hs IH]; intros i w w' tr Hs; inversion Hs; subst.
  - cbn. now rewrite app_nil_r.
  - cbn [execLoop].
    unfold bind, extern. cbn [world calls].
    match goal with E : Exec h ctx args w = _ |- _ => rewrite E end.
    rewrite (IH (S i) _ _ _ ltac:(eassumption)).
    cbn [List.length seq map]. now rewrite <- app_assoc.
Qed.

Lemma initLoop_Some_inv hs e : forall i s s',
  initLoop i hs s = (Returns (Some e), s') ->
  exists h w0 w1, In h hs /\ Init h w0 = (Returns (Some e), w1).
Proof.
  induction hs as [|h hs IH]; intros i s s'.
  - cbn. discriminate.
  - cbn [initLoop]. unfold bind, extern.
    destruct (Init h (world s)) as [[[e'|]|r] w'] eqn:E; try discriminate.
    + intros [= <- <-]. exists h, (world s), w'. split; [now left | exact E].
    + intros H. destruct (IH _ _ _ H) as [h' [w0 [w1 [Hin Hh]]]].
      exists h', w0, w1. split; [now right | exact Hh].
Qed.

Lemma execLoop_Some_inv ctx args hs e : forall i s s',
  execLoop ctx args i hs s = (Returns (Some e), s') ->
  exists h w0 w1, In h hs /\ Exec h ctx args w0 = (Returns (Some e), w1).
Proof.
  induction hs as [|h hs IH]; intros i s s'.
  - cbn. discriminate.
  - cbn [execLoop]. unfold bind, extern.
    destruct (Exec h ctx args (world s)) as [[[e'|]|r] w'] eqn:E; try discriminate.
    + intros [= <- <-]. exists h, (world s), w'. split; [now left | exact E].
    + intros H. destruct (IH _ _ _ H) as [h' [w0 [w1 [Hin Hh]]]].
      exists h', w0, w1. split; [now right | exact Hh].
Qed.

End PipelineShape.

Section AllShape.
Import Go Allcmd.
Context {W Args LevelLogger : Type}.
Variable WithField : LevelLogger -> string -> string -> LevelLogger.
Local Open Scope list_scope.

Lemma all_Exec_with_logger (a : all W Args LevelLogger) ctx args l s :
  InfoLog (core a) = Some l ->
  exists a',
    commandHandlers a' = commandHandlers a /\
    all_Exec WithField a ctx args s
    = (err <- pipeline ctx args (commandHandlers a) ;; ret (a', err))%go s.
Proof.
  intros Hl. destruct (all_Init_returns WithField a l Hl) as [a' Ha].
  destruct (all_Init_handlers WithField _ _ _ Ha) as [Hh _].
  exists a'. split; [exact Hh|]. unfold all_Exec. now rewrite Ha, Hh.
Qed.

(** X1. Whatever the three handlers do (return, fail or panic) and
    whatever the logger is, the calls [all.Exec] makes are [Init] on the
    positions [0 .. i-1] followed by [Exec] on the positions [0 .. j-1],
    each position at most once and in order, and [Exec] is called at all
    only after all three [Init]s have been called. *)
Theorem all_Exec_call_order (a : all W Args LevelLogger) ctx args w :
  exists i j,
    calls (snd (run (all_Exec WithField a ctx args) w))
    = map CallInit (seq 0 i) ++ map CallExec (seq 0 j) /\
    (i <= 3)%nat /\ (j <= 3)%nat /\ (0 < j -> i = 3)%nat.
Proof.
  unfold run. destruct (InfoLog (core a)) as [l|] eqn:Hl.
  - destruct (all_Exec_with_logger a ctx args l (mkSt w []) Hl) as [a' [_ E]].
    rewrite E. unfold bind.
    destruct (pipeline_calls ctx args (commandHandlers a) (mkSt w []))
      as [i [j [Hc [Hi [Hj Hij]]]]].
    exists i, j.
    destruct (pipeline ctx args (commandHandlers a) (mkSt w [])) as [[err|r] s1];
      cbn [fst snd ret] in *; rewrite Hc; cbn [calls app List.length] in *; auto.
  - exists 0%nat, 0%nat. unfold all_Exec, all_Init. rewrite Hl. cbn.
    repeat split; lia.
Qed.

(** X2. With a logger in place, [all.Exec] returns [nil] exactly when
    the three [Init]s and then the three [Exec]s all returned [nil], each
    in the world the previous call left; the calls made are then the three
    [Init]s followed by the three [Exec]s. *)
Theorem all_Exec_succeeds_iff (a : all W Args LevelLogger) ctx args l w st :
  InfoLog (core a) = Some l ->
  (exists a',
     run (all_Exec WithField a ctx args) w = (Returns (a', None), st))
  <->
  (exists w1,
     InitsSucceed (commandHandlers a) w w1 /\
     ExecsSucceed ctx args (commandHandlers a) w1 (world st) /\
     calls st = map CallInit (seq 0 3) ++ map CallExec (seq 0 3)).
Proof.
  intros Hl. unfold run.
  destruct (all_Exec_with_logger a ctx args l (mkSt w []) Hl) as [a' [_ E]].
  rewrite E. unfold bind at 1. unfold pipeline, bind. split.
  - intros [a0 H].
    destruct (initLoop 0 (commandHandlers a) (mkSt w [])) as [[[e|]|r] s1] eqn:Ei;
      cbn [ret] in H; try discriminate.
    destruct (execLoop ctx args 0 (commandHandlers a) s1) as [[[e|]|r] s2] eqn:Ee;
      cbn [ret] in H; try discriminate.
    injection H as _ <-.
    destruct (initLoop_None_inv _ _ _ _ Ei) as [Hs Hc].
    destruct (execLoop_None_inv _ _ _ _ _ _ Ee) as [Hs' Hc'].
    exists (world s1). cbn [world calls] in *.
    split; [exact Hs|]. split; [exact Hs'|]. rewrite Hc', Hc. reflexivity.
  - intros [w1 [Hs [Hs' Hc]]]. exists a'.
    rewrite (initLoop_all_succeed _ 0 w w1 [] Hs).
    rewrite (execLoop_all_succeed ctx args _ 0 w1 (world st) _ Hs').
    cbn [ret]. destruct st as [ws cs]. cbn [world calls] in *. now rewrite Hc.
Qed.

(** X3. When [core.InfoLog] is nil, [all.Exec] panics in its own [Init]:
    no handler is called and the world is left as it was. *)
Theorem all_Exec_without_logger (a : all W Args LevelLogger) ctx args w :
  InfoLog (core a) = None ->
  exists r, run (all_Exec WithField a ctx args) w = (Panics r, mkSt w []).
Proof.
  intros Hl. unfold run, all_Exec, all_Init. rewrite Hl. eauto.
Qed.

(** X4. [all.Exec] invents no error and wraps none: an error it returns
    is, as it stands, the error that [Init] or [Exec] of one of its three
    handlers returned. *)
Theorem all_Exec_error_provenance (a : all W Args LevelLogger) ctx args w a' e st :
  run (all_Exec WithField a ctx args) w = (Returns (a', Some e), st) ->
  exists h w0 w1,
    In h (commandHandlers a) /\
    (Init h w0 = (Returns (Some e), w1) \/
     Exec h ctx args w0 = (Returns (Some e), w1)).
Proof.
  unfold run. destruct (InfoLog (core a)) as [l|] eqn:Hl.
  - destruct (all_Exec_with_logger a ctx args l (mkSt w []) Hl) as [a0 [_ E]].
    rewrite E. unfold bind at 1. unfold pipeline, bind.
    destruct (initLoop 0 (commandHandlers a) (mkSt w [])) as [[[e1|]|r] s1] eqn:Ei;
      cbn [ret]; try discriminate.
    + intros [= _ <- _].
      destruct (initLoop_Some_inv _ _ _ _ _ Ei) as [h [w0 [w1 [Hin Hh]]]].
      exists h, w0, w1. auto.
    + destruct (execLoop ctx args 0 (commandHandlers a) s1) as [[[e2|]|r] s2] eqn:Ee;
        cbn [ret]; try discriminate.
      intros [= _ <- _].
      destruct (execLoop_Some_inv _ _ _ _ _ _ _ Ee) as [h [w0 [w1 [Hin Hh]]]].
      exists h, w0, w1. auto.
  - unfold all_Exec, all_Init. rewrite Hl. discriminate.
Qed.

End AllShape.

Lemma all_Exec_succeeds_iff_witness :
  exists a',
    Go.run (Allcmd.all_Exec Examples.withField
              (Examples.mk_all Examples.okHandler Examples.okHandler
                 Examples.okHandler)
              Go.Background tt) 0%nat
    = (Go.Returns (a', None),
       Go.mkSt 6%nat
         [Allcmd.CallInit 0; Allcmd.CallInit 1; Allcmd.CallInit 2;
          Allcmd.CallExec 0; Allcmd.CallExec 1; Allcmd.CallExec 2]).
Proof.
  refine (proj2 (all_Exec_succeeds_iff Examples.withField
            (Examples.mk_all Examples.okHandler Examples.okHandler
               Examples.okHandler)
            Go.Background tt tt 0%nat
            (Go.mkSt 6%nat
               [Allcmd.CallInit 0; Allcmd.CallInit 1; Allcmd.CallInit 2;
                Allcmd.CallExec 0; Allcmd.CallExec 1; Allcmd.CallExec 2])
            eq_refl) _).
  exists 3%nat. split; [|split; [|reflexivity]].
  - repeat (eapply Allcmd.InitsSucceed_cons; [reflexivity|]).
    apply Allcmd.InitsSucceed_nil.
  - repeat (eapply Allcmd.ExecsSucceed_cons; [reflexivity|]).
    apply Allcmd.ExecsSucceed_nil.
Defined.

Lemma all_Exec_without_logger_witness :
  exists r,
    Go.run (Allcmd.all_Exec Examples.withField
              {| Allcmd.infoLog := None;
                 Allcmd.core := {| Allcmd.InfoLog := None |};
                 Allcmd.builder := Examples.okHandler;
                 Allcmd.archivist := Examples.okHandler;
                 Allcmd.releaser := Examples.okHandler |}
              Go.Background tt) 5%nat
    = (Go.Panics r, Go.mkSt 5%nat []).
Proof.
  exact (all_Exec_without_logger Examples.withField
           {| Allcmd.infoLog := None;
              Allcmd.core := {| Allcmd.InfoLog := None |};
              Allcmd.builder := Examples.okHandler;
              Allcmd.archivist := Examples.okHandler;
              Allcmd.releaser := Examples.okHandler |}
           Go.Background tt 5%nat eq_refl).
Defined.

Lemma all_Exec_error_provenance_witness :
  exists h w0 w1,
    In h [Examples.okHandler; Examples.execFails "archive: disk full";
          Examples.okHandler] /\
    (Allcmd.Init h w0 = (Go.Returns (Some (Go.errorString "archive: disk full")), w1) \/
     Allcmd.Exec h Go.Background tt w0
     = (Go.Returns (Some (Go.errorString "archive: disk full")), w1)).
Proof.
  exact (all_Exec_error_provenance Examples.withField
           (Examples.mk_all Examples.okHandler
              (Examples.execFails "archive: disk full") Examples.okHandler)
           Go.Background tt 0%nat _
           (Go.errorString "archive: disk full") _ eq_refl).
Defined.

(** ** The live client *)

Section LiveShape.
Import Go Releases.
Context {W : Type} (host : Host W).
Local Open Scope list_scope.

(** X5. After the remote upload call, [GitHubClient.UploadAssetsFile]
    returns [nil] exactly when the call returned no error; it returns the
    call's error as it is when there is a response with status 400 or 422;
    and it returns the error wrapped in a [TemporaryError] for every other
    status. One remote call is made in each case. *)
Theorem GitHubClient_UploadAssetsFile_outcomes
    (c : GitHubClient) ctx settings (fh : File) id (s : St W Ev) resp err w' :
  let opts := {| uoName := filepath_Base host (File_Name fh) |} in
  Repositories_UploadReleaseAsset host (client c) ctx
    (RepositoryOwner settings) (Repository settings) id opts fh (world s)
  = ((resp, err), w') ->
  exists r,
    GitHubClient_UploadAssetsFile host c ctx settings (Some fh) id s
    = (Returns r,
       mkSt w' (calls s ++ [EvUploadReleaseAsset (RepositoryOwner settings)
                  (Repository settings) id opts fh])) /\
    (r = None <-> err = None) /\
    (forall e rsp, err = Some e -> resp = Some rsp ->
       StatusCode rsp = 400 \/ StatusCode rsp = 422 -> r = Some e) /\
    (forall e rsp, err = Some e -> resp = Some rsp ->
       StatusCode rsp <> 400 -> StatusCode rsp <> 422 ->
       r = Some (TemporaryError (Some e))).
Proof.
  intros opts H.
  unfold GitHubClient_UploadAssetsFile, UploadAssetsFile_with, bind, call, extern.
  fold opts. rewrite H. destruct err as [e|].
  - destruct resp as [rsp|].
    + unfold isTemporaryHttpStatus, StatusUnprocessableEntity, StatusBadRequest.
      destruct (Z.eqb_spec (StatusCode rsp) 422) as [E1|N1];
        [|destruct (Z.eqb_spec (StatusCode rsp) 400) as [E2|N2]];
        cbn [orb negb ret]; eexists; (split; [reflexivity|]);
        (split; [split; discriminate|]); split;
        intros x y Hx Hy; injection Hx as <-; injection Hy as <-;
        intros; try reflexivity; lia.
    + eexists. split; [reflexivity|]. split; [split; discriminate|].
      split; intros x y _ [=].
  - eexists. split; [reflexivity|]. split; [tauto|].
    split; intros x y [=].
Qed.

Lemma Release_submit_cases (c : GitHubClient) ctx tagName committish settings
    body (s : St W Ev) :
  let req := release_request tagName committish settings body in
  let sent := EvCreateRelease (RepositoryOwner settings) (Repository settings) req in
  exists rel resp err w',
    Repositories_CreateRelease host (client c) ctx (RepositoryOwner settings)
      (Repository settings) req (world s) = ((rel, resp, err), w') /\
    snd (Release_submit host c ctx tagName committish settings body s)
    = mkSt w' (calls s ++ [sent]) /\
    (forall id, fst (Release_submit host c ctx tagName committish settings body s)
                = Returns (id, None) ->
       err = None /\ exists rl rsp, rel = Some rl /\ resp = Some rsp /\
                       StatusCode rsp = 201 /\ ID rl = Some id) /\
    (forall id e, fst (Release_submit host c ctx tagName committish settings body s)
                  = Returns (id, Some e) -> id = 0).
Proof.
  intros req sent. unfold Release_submit, bind, call, extern. fold req. fold sent.
  destruct (Repositories_CreateRelease host (client c) ctx
              (RepositoryOwner settings) (Repository settings) req (world s))
    as [[[rel resp] err] w'].
  exists rel, resp, err, w'. split; [reflexivity|].
  destruct err as [e|]; cbn [fst snd ret].
  { split; [reflexivity|]. split; [discriminate|]. now intros id e0 [= <- _]. }
  destruct resp as [rsp|]; cbn [fst snd panic].
  2:{ split; [reflexivity|]. split; discriminate. }
  unfold StatusCreated.
  destruct (Z.eqb_spec (StatusCode rsp) 201) as [E|N]; cbn [negb fst snd ret].
  2:{ split; [reflexivity|]. split; [discriminate|]. now intros id e0 [= <- _]. }
  destruct rel as [rl|]; cbn [fst snd panic].
  2:{ split; [reflexivity|]. split; discriminate. }
  destruct (ID rl) as [i|] eqn:Ei; cbn [fst snd ret panic].
  2:{ split; [reflexivity|]. split; discriminate. }
  split; [reflexivity|]. split; [|discriminate].
  intros id [= <-]. split; [reflexivity|]. exists rl, rsp. auto.
Qed.

(** How [GitHubClient.Release] reaches the submission, if it does. *)
Lemma GitHubClient_Release_route (c : GitHubClient) ctx tagName committish
    settings (s : St W Ev) :
  let name := ReleaseNotesFilename settings in
  (exists e w1,
     GitHubClient_Release host c ctx tagName committish settings s
     = (Returns (0, Some e), mkSt w1 (calls s ++ [EvReadFile name]))) \/
  (exists body reads w1,
     (reads = [] \/ reads = [EvReadFile name]) /\
     GitHubClient_Release host c ctx tagName committish settings s
     = Release_submit host c ctx tagName committish settings body
         (mkSt w1 (calls s ++ reads))).
Proof.
  intros name. unfold GitHubClient_Release. fold name.
  destruct (String.eqb name ""); cbn [negb].
  - right. exists "", [], (world s). split; [now left|].
    rewrite app_nil_r. now destruct s.
  - unfold bind, call, extern.
    destruct (os_ReadFile host name (world s)) as [[b [e|]] w1].
    + left. exists e, w1. reflexivity.
    + right. exists b, [EvReadFile name], w1. split; [now right | reflexivity].
Qed.

(** X6. [GitHubClient.Release] reports success only on a 201: when it
    returns an identifier and no error, its last call was the remote
    creation of the release, which returned no error, a response with
    status 201 and a release carrying that identifier. *)
Theorem GitHubClient_Release_success_inv
    (c : GitHubClient) ctx tagName committish settings (s st : St W Ev) id :
  GitHubClient_Release host c ctx tagName committish settings s
  = (Returns (id, None), st) ->
  exists body w0 rl rsp,
    Repositories_CreateRelease host (client c) ctx (RepositoryOwner settings)
      (Repository settings) (release_request tagName committish settings body) w0
    = ((Some rl, Some rsp, None), world st) /\
    StatusCode rsp = 201 /\ ID rl = Some id /\
    exists before,
      calls st = before ++ [EvCreateRelease (RepositoryOwner settings)
                   (Repository settings)
                   (release_request tagName committish settings body)].
Proof.
  intros H.
  destruct (GitHubClient_Release_route c ctx tagName committish settings s)
    as [[e [w1 E]]|[body [reads [w1 [_ E]]]]]; rewrite E in H; [discriminate|].
  destruct (Release_submit_cases c ctx tagName committish settings body
              (mkSt w1 (calls s ++ reads)))
    as [rel [resp [err [w' [Hr [Hs [Hok _]]]]]]].
  rewrite H in Hs, Hok. cbn [fst snd world calls] in *.
  destruct (Hok id eq_refl) as [-> [rl [rsp [-> [-> [H201 Hid]]]]]].
  exists body, w1, rl, rsp. subst st. cbn [world calls].
  split; [exact Hr|]. split; [exact H201|]. split; [exact Hid|]. eauto.
Qed.

(** X7. Whenever [GitHubClient.Release] returns an error, the identifier
    it returns with it is 0. *)
Theorem GitHubClient_Release_error_zero
    (c : GitHubClient) ctx tagName committish settings (s st : St W Ev) id e :
  GitHubClient_Release host c ctx tagName committish settings s
  = (Returns (id, Some e), st) ->
  id = 0.
Proof.
  intros H.
  destruct (GitHubClient_Release_route c ctx tagName committish settings s)
    as [[e1 [w1 E]]|[body [reads [w1 [_ E]]]]]; rewrite E in H.
  - now injection H as <- _ _.
  - destruct (Release_submit_cases c ctx tagName committish settings body
                (mkSt w1 (calls s ++ reads)))
      as [rel [resp [err [w' [_ [_ [_ Hz]]]]]]].
    rewrite H in Hz. exact (Hz id e eq_refl).
Qed.

(** X8. In any run of [GitHubClient.Release], whether it returns or
    panics, the calls it adds are at most one read of the release-notes
    file followed by at most one request to the remote service: the
    creation of a release is never sent twice. *)
Theorem GitHubClient_Release_calls
    (c : GitHubClient) ctx tagName committish settings (s : St W Ev) :
  exists reads sends,
    calls (snd (GitHubClient_Release host c ctx tagName committish settings s))
    = calls s ++ reads ++ sends /\
    (reads = [] \/ reads = [EvReadFile (ReleaseNotesFilename settings)]) /\
    (sends = [] \/
     exists body,
       sends = [EvCreateRelease (RepositoryOwner settings) (Repository settings)
                  (release_request tagName committish settings body)]) /\
    (List.length (filter is_network (reads ++ sends)) <= 1)%nat.
Proof.
  destruct (GitHubClient_Release_route c ctx tagName committish settings s)
    as [[e [w1 E]]|[body [reads [w1 [Hreads E]]]]]; rewrite E.
  - exists [EvReadFile (ReleaseNotesFilename settings)], []. cbn.
    repeat split; auto.
  - destruct (Release_submit_cases c ctx tagName committish settings body
                (mkSt w1 (calls s ++ reads)))
      as [rel [resp [err [w' [_ [Hs _]]]]]].
    rewrite Hs. cbn [calls].
    exists reads, [EvCreateRelease (RepositoryOwner settings) (Repository settings)
                     (release_request tagName committish settings body)].
    rewrite <- app_assoc. split; [reflexivity|]. split; [exact Hreads|].
    split; [right; eauto|].
    destruct Hreads as [-> | ->]; cbn; lia.
Qed.

(** The request [GitHubClient.Release] builds never carries an empty
    string: the tag, the commitish, the name and the body are each left
    out when empty and sent as they are otherwise. *)
Theorem release_request_no_empty_string tagName committish settings body :
  let r := release_request tagName committish settings body in
  let sent (field : option string) (src : string) :=
    field <> Some "" /\ (field = None <-> src = "") /\
    (src <> "" -> field = Some src) in
  sent (TagName r) tagName /\
  sent (TargetCommitish r) committish /\
  sent (rrName r) (Name settings) /\
  sent (Body r) body.
Proof.
  assert (G : forall src,
    Release_s src <> Some "" /\ (Release_s src = None <-> src = "") /\
    (src <> "" -> Release_s src = Some src)).
  { intros src. unfold Release_s. destruct (String.eqb_spec src "").
    - subst. split; [discriminate|]. split; [tauto|]. intros N. now elim N.
    - split; [congruence|]. split; [|reflexivity]. split; [discriminate|tauto]. }
  intros r sent. unfold sent, r. cbn [release_request TagName TargetCommitish rrName Body].
  split; [apply G|]. split; [apply G|]. split; apply G.
Qed.

(** X9. [NewClient] returns either a client or an error, never both and
    never neither, and it leaves the world and the call log as they
    were. *)
Theorem NewClient_client_xor_error ctx typ (s : St W Ev) :
  exists cl err,
    NewClient host ctx typ s = (Returns (cl, err), s) /\
    (cl = None <-> err <> None).
Proof.
  unfold NewClient, bind, peek, ret.
  destruct (Type_eqb typ GitHub); cbn [negb].
  - destruct (String.eqb (os_Getenv host tokenEnvVar (world s)) "").
    + do 2 eexists. split; [reflexivity|]. split; [discriminate | reflexivity].
    + destruct (String.eqb (os_Getenv host tokenEnvVar (world s)) "faketoken");
        do 2 eexists; (split; [reflexivity|]); split; try discriminate;
        intros N; now elim N.
  - do 2 eexists. split; [reflexivity|]. split; [discriminate | reflexivity].
Qed.

End LiveShape.

Lemma GitHubClient_UploadAssetsFile_outcomes_witness :
  exists r,
    Releases.GitHubClient_UploadAssetsFile Examples.okHost Examples.liveClient
      Go.Background Examples.settings0 (Some Examples.file0) 42
      (Go.mkSt 0%nat [])
    = (Go.Returns r,
       Go.mkSt 1%nat
         [Releases.EvUploadReleaseAsset "gohugoio" "hugoreleaser" 42
            {| Releases.uoName := "app.tar.gz" |} Examples.file0]) /\
    r = Some (Go.errorString "validation failed").
Proof.
  destruct (GitHubClient_UploadAssetsFile_outcomes Examples.okHost
              Examples.liveClient Go.Background Examples.settings0
              Examples.file0 42 (Go.mkSt 0%nat [])
              (Some {| Releases.StatusCode := 422 |})
              (Some (Go.errorString "validation failed")) 1%nat eq_refl)
    as [r [E [_ [H _]]]].
  exists r. split; [exact E|].
  apply (H _ _ eq_refl eq_refl). right. reflexivity.
Defined.

Lemma GitHubClient_Release_success_inv_witness :
  exists body w0 rl rsp,
    Releases.Repositories_CreateRelease Examples.okHost
      (Releases.client Examples.liveClient) Go.Background "gohugoio"
      "hugoreleaser"
      (Releases.release_request "v1.0.0" "main" Examples.settings0 body) w0
    = ((Some rl, Some rsp, None), 1%nat) /\
    Releases.StatusCode rsp = 201 /\ Releases.ID rl = Some 42 /\
    exists before,
      [Releases.EvReadFile "notes.md";
       Releases.EvCreateRelease "gohugoio" "hugoreleaser"
         (Releases.release_request "v1.0.0" "main" Examples.settings0 "notes")]
      = (before ++ [Releases.EvCreateRelease "gohugoio" "hugoreleaser"
           (Releases.release_request "v1.0.0" "main" Examples.settings0 body)])%list.
Proof.
  exact (GitHubClient_Release_success_inv Examples.okHost Examples.liveClient
           Go.Background "v1.0.0" "main" Examples.settings0
           (Go.mkSt 0%nat [])
           (Go.mkSt 1%nat
              [Releases.EvReadFile "notes.md";
               Releases.EvCreateRelease "gohugoio" "hugoreleaser"
                 (Releases.release_request "v1.0.0" "main" Examples.settings0
                    "notes")])
           42 eq_refl).
Defined.

Lemma GitHubClient_Release_error_zero_witness :
  Releases.GitHubClient_Release Examples.testHost Examples.liveClient
    Go.Background "v1.0.0" "main" Examples.settings_no_notes (Go.mkSt 0%nat [])
  = (Go.Returns (0, Some (Go.errorString "github: unexpected status code: 200")),
     Go.mkSt 1%nat
       [Releases.EvCreateRelease "gohugoio" "hugoreleaser"
          (Releases.release_request "v1.0.0" "main"
             Examples.settings_no_notes "")]) /\
  0 = 0.
Proof.
  split; [reflexivity|].
  exact (GitHubClient_Release_error_zero Examples.testHost Examples.liveClient
           Go.Background "v1.0.0" "main" Examples.settings_no_notes
           (Go.mkSt 0%nat [])
           (Go.mkSt 1%nat
              [Releases.EvCreateRelease "gohugoio" "hugoreleaser"
                 (Releases.release_request "v1.0.0" "main"
                    Examples.settings_no_notes "")])
           0 (Go.errorString "github: unexpected status code: 200") eq_refl).
Defined.

(** ** One upload attempt *)

Section AttemptShape.
Import Go Releases.
Context {W : Type} (host : Host W) {C : Type} {cl : Client W C}.
Local Open Scope list_scope.

(** X10. When [openFile] returns an error, the attempt ends there: the
    error is returned flagged not retryable, and neither the upload nor
    [Close] is called, whatever came back next to the error. *)
Theorem uploadAttempt_open_error_is_final ctx (c : C) settings id openFile
    (s : St W Ev) f e w1 :
  openFile (world s) = ((f, Some e), w1) ->
  uploadAttempt host ctx c settings id openFile s
  = (Returns (Some e, false), mkSt w1 (calls s ++ [EvOpenFile])).
Proof.
  intros H. unfold uploadAttempt, bind, call, extern.
  rewrite H. reflexivity.
Qed.

(** X11. When [openFile] succeeds, the upload runs on the file it
    returned, and [Close] on that file is the last call of the attempt,
    made exactly once, whether the upload returns or panics; a panic of
    the upload goes on after the [Close]. *)
Theorem uploadAttempt_always_closes ctx (c : C) settings id openFile
    (s : St W Ev) f w1 :
  openFile (world s) = ((f, None), w1) ->
  exists o2 s2 o w3,
    UploadAssetsFile c ctx settings f id (mkSt w1 (calls s ++ [EvOpenFile]))
    = (o2, s2) /\
    uploadAttempt host ctx c settings id openFile s
    = (o, mkSt w3 (calls s2 ++ [EvClose f])) /\
    match o2 with
    | Returns err => o = Returns (err, retryable err)
    | Panics r => o = Panics r
    end.
Proof.
  intros Ho.
  destruct (UploadAssetsFile c ctx settings f id
              (mkSt w1 (calls s ++ [EvOpenFile]))) as [[err|r] s2] eqn:Hu.
  - destruct (uploadAttempt_upload_returns host ctx c settings id openFile
                s s2 f w1 err Ho Hu) as [w3 H].
    exists (Returns err), s2, (Returns (err, retryable err)), w3. auto.
  - destruct (uploadAttempt_upload_panics host ctx c settings id openFile
                s s2 f w1 r Ho Hu) as [w3 H].
    exists (Panics r), s2, (Panics r), w3. auto.
Qed.

(** X12. An attempt is flagged retryable only when its error, unwrapped
    as [errors.Is] unwraps, reaches the empty value [TemporaryError{}];
    in particular never for an error of [openFile], for [nil], or for a
    [TemporaryError] that holds an error. *)
Theorem uploadAttempt_retryable_inv ctx (c : C) settings id openFile
    (s st : St W Ev) err :
  uploadAttempt host ctx c settings id openFile s = (Returns (err, true), st) ->
  (exists e, err = Some e /\ Reaches e (TemporaryError None)) /\
  (forall e, err <> Some (TemporaryError (Some e))).
Proof.
  intros H.
  assert (R : retryable err = true).
  { destruct (openFile (world s)) as [[f [e|]] w1] eqn:Ho.
    - rewrite (uploadAttempt_open_failure host ctx c settings id openFile
                 s f e w1 Ho) in H. discriminate.
    - destruct (UploadAssetsFile c ctx settings f id
                  (mkSt w1 (calls s ++ [EvOpenFile]))) as [[err2|r] s2] eqn:Hu.
      + destruct (uploadAttempt_upload_returns host ctx c settings id openFile
                    s s2 f w1 err2 Ho Hu) as [w3 E].
        rewrite E in H. injection H as <- Hr _. exact Hr.
      + destruct (uploadAttempt_upload_panics host ctx c settings id openFile
                    s s2 f w1 r Ho Hu) as [w3 E].
        rewrite E in H. discriminate. }
  split; [now apply retryable_true_iff|].
  intros e ->. discriminate.
Qed.

End AttemptShape.

Section FakeAttempt.
Import Go Releases.
Context {W : Type} (host : Host W).
Local Open Scope list_scope.

Lemma FakeClient_UploadAssetsFile_plain (c : FakeClient) ctx settings f id
    (s : St W Ev) :
  exists r,
    FakeClient_UploadAssetsFile c ctx settings f id s = (Returns r, s) /\
    (r = None \/ exists msg, r = Some (errorString msg)).
Proof.
  unfold FakeClient_UploadAssetsFile.
  destruct (negb (releaseID c =? id)); [eexists; split; [reflexivity|right; eauto]|].
  destruct (isNil f); eexists; (split; [reflexivity|]); [right; eauto | now left].
Qed.

(** X13. With the fake client an attempt is never flagged retryable,
    whatever [openFile] and the identifiers are; and the fake upload
    itself makes no call. *)
Theorem uploadAttempt_fake_never_retryable (c : FakeClient) ctx settings id
    openFile (s st : St W Ev) err again :
  uploadAttempt (cl := FakeClient_Client host) host ctx c settings id openFile s
  = (Returns (err, again), st) ->
  again = false /\
  exists f, calls st = calls s ++ [EvOpenFile]
            \/ calls st = calls s ++ [EvOpenFile; EvClose f].
Proof.
  intros H. destruct (openFile (world s)) as [[f [e|]] w1] eqn:Ho.
  - rewrite (uploadAttempt_open_failure (cl := FakeClient_Client host) host
               ctx c settings id openFile s f e w1 Ho) in H.
    injection H as _ <- <-. split; [reflexivity|]. exists f. now left.
  - destruct (FakeClient_UploadAssetsFile_plain c ctx settings f id
                (mkSt w1 (calls s ++ [EvOpenFile]))) as [r [Hu Hr]].
    destruct (uploadAttempt_upload_returns (cl := FakeClient_Client host) host
                ctx c settings id openFile s _ f w1 r Ho Hu) as [w3 E].
    rewrite E in H. injection H as <- <- <-. cbn [calls].
    split.
    + destruct Hr as [-> | [msg ->]]; reflexivity.
    + exists f. right. now rewrite <- app_assoc.
Qed.

End FakeAttempt.

Lemma uploadAttempt_open_error_is_final_witness :
  Releases.uploadAttempt (cl := Releases.GitHubClient_Client Examples.testHost)
    Examples.testHost Go.Background Examples.liveClient Examples.settings0 7
    Examples.openFails (Go.mkSt 0%nat [])
  = (Go.Returns (Some (Go.errorString "open dist/app.tar.gz: permission denied"),
                 false),
     Go.mkSt 0%nat [Releases.EvOpenFile]).
Proof.
  exact (uploadAttempt_open_error_is_final
           (cl := Releases.GitHubClient_Client Examples.testHost)
           Examples.testHost Go.Background Examples.liveClient
           Examples.settings0 7 Examples.openFails (Go.mkSt 0%nat [])
           None _ 0%nat eq_refl).
Defined.

Lemma uploadAttempt_always_closes_witness :
  exists o2 s2 o w3,
    Releases.UploadAssetsFile (Client := Releases.GitHubClient_Client Examples.okHost)
      Examples.liveClient Go.Background Examples.settings0
      (Some Examples.file0) 42 (Go.mkSt 0%nat [Releases.EvOpenFile])
    = (o2, s2) /\
    Releases.uploadAttempt (cl := Releases.GitHubClient_Client Examples.okHost)
      Examples.okHost Go.Background Examples.liveClient Examples.settings0 42
      Examples.openFile0 (Go.mkSt 0%nat [])
    = (o, Go.mkSt w3 (Go.calls s2 ++ [Releases.EvClose (Some Examples.file0)])%list) /\
    match o2 with
    | Go.Returns err => o = Go.Returns (err, Releases.retryable err)
    | Go.Panics r => o = Go.Panics r
    end.
Proof.
  exact (uploadAttempt_always_closes
           (cl := Releases.GitHubClient_Client Examples.okHost)
           Examples.okHost Go.Background Examples.liveClient
           Examples.settings0 42 Examples.openFile0 (Go.mkSt 0%nat [])
           (Some Examples.file0) 0%nat eq_refl).
Defined.

Lemma uploadAttempt_retryable_inv_witness :
  (exists e, Some (Go.TemporaryError None) = Some e /\
             Go.Reaches e (Go.TemporaryError None)) /\
  (forall e, Some (Go.TemporaryError None)
             <> Some (Go.TemporaryError (Some e))).
Proof.
  exact (uploadAttempt_retryable_inv (cl := Examples.emptyTemporaryClient)
           Examples.testHost Go.Background tt Examples.settings0 7
           Examples.openFile0 (Go.mkSt 0%nat [])
           (Go.mkSt 0%nat [Releases.EvOpenFile;
                           Releases.EvClose (Some Examples.file0)])
           (Some (Go.TemporaryError None)) eq_refl).
Defined.

Lemma uploadAttempt_fake_never_retryable_witness :
  false = false /\
  exists f,
    [Releases.EvOpenFile; Releases.EvClose (Some Examples.file0)]
    = ([] ++ [Releases.EvOpenFile])%list
    \/ [Releases.EvOpenFile; Releases.EvClose (Some Examples.file0)]
       = ([] ++ [Releases.EvOpenFile; Releases.EvClose f])%list.
Proof.
  exact (uploadAttempt_fake_never_retryable Examples.testHost
           Releases.FakeClient_zero Go.Background Examples.settings0 7
           Examples.openFile0 (Go.mkSt 0%nat [])
           (Go.mkSt 0%nat [Releases.EvOpenFile;
                           Releases.EvClose (Some Examples.file0)])
           (Some (Go.errorString "fake: releaseID mismatch: 0 != 7")) false
           eq_refl).
Defined.

(** ** The top-level run, on every path *)

Section RunShape.
Import Go Main.
Variable Duration_String : Z -> string.

Lemma after_Run_nil_iff k err :
  after_Run Duration_String k err = None <-> err = None.
Proof.
  unfold after_Run. destruct err as [e|]; [|tauto].
  destruct (errors_Is (Some e) (Some DeadlineExceeded)
            || errors_Is (Some e) (Some Canceled)); split; discriminate.
Qed.

Lemma parseAndRun_body_nil_iff k :
  parseAndRun_body Duration_String k = Returns None <->
  PreInit k = Returns None /\ Parse k = Returns None /\
  Init k = Returns None /\
  Run k (WithTimeout Background (Timeout k)) = Returns None.
Proof.
  unfold parseAndRun_body.
  destruct (PreInit k) as [[e|]|r]; [split; [discriminate|now intros [[=] _]]| |split; [discriminate|now intros [[=] _]]].
  destruct (Parse k) as [[e|]|r]; [split; [discriminate|now intros [_ [[=] _]]]| |split; [discriminate|now intros [_ [[=] _]]]].
  destruct (Init k) as [[e|]|r]; [split; [discriminate|now intros [_ [_ [[=] _]]]]| |split; [discriminate|now intros [_ [_ [[=] _]]]]].
  destruct (Run k (WithTimeout Background (Timeout k))) as [err|r].
  - split.
    + intros [= H]. apply after_Run_nil_iff in H. subst. auto.
    + intros [_ [_ [_ [= ->]]]]. reflexivity.
  - split; [discriminate|now intros [_ [_ [_ [=]]]]].
Qed.

(** X14. [parseAndRun] returns [nil] exactly when [core.PreInit], the
    parsing of the flags, [core.Init], the command and [core.Close] all
    returned [nil]; a panic anywhere gives an error. *)
Theorem parseAndRun_nil_iff (k : Calls) :
  parseAndRun Duration_String k = None <->
  PreInit k = Returns None /\ Parse k = Returns None /\
  Init k = Returns None /\
  Run k (WithTimeout Background (Timeout k)) = Returns None /\
  Close k = Returns None.
Proof.
  unfold parseAndRun, deferred_Close. split.
  - destruct (Close k) as [[ce|]|r]; [| |discriminate].
    + destruct (parseAndRun_body Duration_String k) as [[e|]|r];
        cbn [isNil negb andb]; discriminate.
    + destruct (parseAndRun_body Duration_String k) as [[e|]|r] eqn:B;
        cbn [isNil negb andb]; try discriminate.
      intros _. apply parseAndRun_body_nil_iff in B. tauto.
  - intros [Hp [Hq [Hi [Hr Hc]]]]. rewrite Hc.
    rewrite (proj2 (parseAndRun_body_nil_iff k)) by tauto. reflexivity.
Qed.

(** X15. An error of the run is never masked by the closing of the
    application: when the statements of [parseAndRun] end with the error
    [e] and [core.Close] returns, with an error or without,
    [parseAndRun] returns [e]. *)
Theorem parseAndRun_close_keeps_error (k : Calls) e closeErr :
  parseAndRun_body Duration_String k = Returns (Some e) ->
  Close k = Returns closeErr ->
  parseAndRun Duration_String k = Some e.
Proof.
  intros Hb Hc. unfold parseAndRun, deferred_Close. rewrite Hc, Hb.
  cbn [isNil]. now rewrite andb_false_r.
Qed.

(** X16. When the run succeeds and [core.Close] returns an error, the
    error [parseAndRun] returns does not carry it: the deferred function
    wraps the named result, which is [nil], so the result is the same
    plain error whatever [core.Close] returned, and unwrapping it yields
    nothing. *)
Theorem parseAndRun_close_error_dropped (k : Calls) closeErr :
  PreInit k = Returns None -> Parse k = Returns None ->
  Init k = Returns None ->
  Run k (WithTimeout Background (Timeout k)) = Returns None ->
  Close k = Returns (Some closeErr) ->
  parseAndRun Duration_String k
  = Some (errorString "error closing app: %!w(<nil>)") /\
  (forall r, parseAndRun Duration_String k = Some r -> Unwrap r = None).
Proof.
  intros Hp Hq Hi Hr Hc.
  assert (E : parseAndRun Duration_String k
              = Some (errorString "error closing app: %!w(<nil>)")).
  { unfold parseAndRun, deferred_Close. rewrite Hc.
    rewrite (proj2 (parseAndRun_body_nil_iff k)) by tauto. reflexivity. }
  split; [exact E|]. intros r. rewrite E. now intros [= <-].
Qed.

(** X17. A panic becomes an error that prints the panic value: a panic
    of [core.Close] whatever happened before it, and a panic of any
    earlier call when [core.Close] returns. *)
Theorem parseAndRun_recovers (k : Calls) r :
  (Close k = Panics r -> parseAndRun Duration_String k = Some (errorString r)) /\
  (forall closeErr,
     Close k = Returns closeErr ->
     parseAndRun_body Duration_String k = Panics r ->
     parseAndRun Duration_String k = Some (errorString r)) /\
  (PreInit k = Panics r -> parseAndRun_body Duration_String k = Panics r) /\
  (PreInit k = Returns None -> Parse k = Panics r ->
   parseAndRun_body Duration_String k = Panics r) /\
  (PreInit k = Returns None -> Parse k = Returns None -> Init k = Panics r ->
   parseAndRun_body Duration_String k = Panics r) /\
  (PreInit k = Returns None -> Parse k = Returns None ->
   Init k = Returns None ->
   Run k (WithTimeout Background (Timeout k)) = Panics r ->
   parseAndRun_body Duration_String k = Panics r).
Proof.
  unfold parseAndRun, deferred_Close, parseAndRun_body.
  split; [intros ->; reflexivity|].
  split; [intros c -> ->; reflexivity|].
  split; [intros ->; reflexivity|].
  split; [intros -> ->; reflexivity|].
  split; [intros -> -> ->; reflexivity|].
  intros -> -> -> ->; reflexivity.
Qed.

(** X18. A failure of [core.PreInit], of the parsing of the flags or of
    [core.Init] ends the run before the later calls matter: the result is
    the cause wrapped under the text of that stage, and [errors.Is] finds
    the cause in it. *)
Theorem parseAndRun_early_failure (k : Calls) e closeErr :
  Close k = Returns closeErr ->
  let wrapped prefix := wrapError (prefix ++ fmt_v e) e in
  (PreInit k = Returns (Some e) ->
   parseAndRun Duration_String k = Some (wrapped "error in foo: ")) /\
  (PreInit k = Returns None -> Parse k = Returns (Some e) ->
   parseAndRun Duration_String k = Some (wrapped "error parsing command line: ")) /\
  (PreInit k = Returns None -> Parse k = Returns None ->
   Init k = Returns (Some e) ->
   parseAndRun Duration_String k = Some (wrapped "error initializing config: ")) /\
  (forall prefix, errors_Is (Some (wrapped prefix)) (Some e) = true).
Proof.
  intros Hc wrapped. unfold parseAndRun, deferred_Close, parseAndRun_body.
  rewrite Hc.
  split; [intros ->; cbn [isNil]; now rewrite andb_false_r|].
  split; [intros -> ->; cbn [isNil]; now rewrite andb_false_r|].
  split; [intros -> -> ->; cbn [isNil]; now rewrite andb_false_r|].
  intros prefix. unfold wrapped. cbn [errors_Is Is_loop].
  destruct e; cbn [Is_loop]; rewrite errval_eqb_refl;
    cbn [orb]; apply orb_true_r.
Qed.

End RunShape.

Lemma parseAndRun_close_keeps_error_witness :
  Main.parseAndRun Examples.durationString Examples.parseFailsRun
  = Some (Go.wrapError
            "error parsing command line: flag provided but not defined: -x"
            (Go.errorString "flag provided but not defined: -x")).
Proof.
  exact (parseAndRun_close_keeps_error Examples.durationString
           Examples.parseFailsRun _
           (Some (Go.errorString "close: device busy")) eq_refl eq_refl).
Defined.

Lemma parseAndRun_close_error_dropped_witness :
  Main.parseAndRun Examples.durationString Examples.closeFailsRun
  = Some (Go.errorString "error closing app: %!w(<nil>)").
Proof.
  exact (proj1 (parseAndRun_close_error_dropped Examples.durationString
                  Examples.closeFailsRun
                  (Go.errorString "close: device busy")
                  eq_refl eq_refl eq_refl eq_refl eq_refl)).
Defined.

Lemma parseAndRun_early_failure_witness :
  Main.parseAndRun Examples.durationString Examples.parseFailsRun
  = Some (Go.wrapError
            "error parsing command line: flag provided but not defined: -x"
            (Go.errorString "flag provided but not defined: -x")).
Proof.
  exact (proj1 (proj2 (parseAndRun_early_failure Examples.durationString
                         Examples.parseFailsRun
                         (Go.errorString "flag provided but not defined: -x")
                         (Some (Go.errorString "close: device busy")) eq_refl))
           eq_refl eq_refl).
Defined.

(** ** The preparation of the environment *)

Section EnvironmentFacts.
Import Go Main.
Variable EnvPrefix : string.
Variable ToUpper : string -> string.
Local Open Scope list_scope.


Lemma Setenv_at key value env k :
  Setenv key value env k = env k \/
  (k = key /\ Setenv_ok key value = true /\ Setenv key value env k = value).
Proof.
  unfold Setenv. destruct (Setenv_ok key value); [|now left].
  destruct (String.eqb_spec k key); [right; auto | now left].
Qed.

(** One flag changes at most its own variable, and only from empty to
    the flag's non-empty value. *)
Lemma passFlag_at f env k :
  passFlag EnvPrefix ToUpper f env k = env k \/
  (k = envName EnvPrefix ToUpper f /\ env k = "" /\ flag_Value f <> "" /\
   passFlag EnvPrefix ToUpper f env k = flag_Value f).
Proof.
  unfold Main.passFlag, Getenv.
  destruct (String.eqb_spec (env (envName EnvPrefix ToUpper f)) "") as [E|N]; [|now left].
  destruct (String.eqb_spec (flag_Value f) "") as [V|V]; cbn [negb]; [now left|].
  destruct (Setenv_at (envName EnvPrefix ToUpper f) (flag_Value f) env k) as [H|[-> [_ H]]];
    [now left | right; auto].
Qed.

Lemma passFlags_at flags : forall env k,
  passFlags EnvPrefix ToUpper flags env k = env k \/
  (env k = "" /\
   exists f, In f flags /\ k = envName EnvPrefix ToUpper f /\ flag_Value f <> "" /\
             passFlags EnvPrefix ToUpper flags env k = flag_Value f).
Proof.
  induction flags as [|f rest IH]; intros env k; [now left|].
  cbn [Main.passFlags].
  destruct (IH (passFlag EnvPrefix ToUpper f env) k) as [H|[He [g [Hin [Hk [Hv Hg]]]]]];
    destruct (passFlag_at f env k) as [P|[Pk [Pe [Pv P]]]].
  - left. congruence.
  - right. split; [exact Pe|]. exists f. split; [now left|].
    split; [exact Pk|]. split; [exact Pv|]. congruence.
  - right. split; [congruence|]. exists g. split; [now right|]. auto.
  - exfalso. rewrite P in He. contradiction.
Qed.

Lemma skipped_passFlag_id f env : skipped EnvPrefix ToUpper f env -> passFlag EnvPrefix ToUpper f env = env.
Proof.
  unfold skipped, Main.passFlag, Getenv, Setenv. intros [H|[H|H]].
  - destruct (String.eqb_spec (env (envName EnvPrefix ToUpper f)) ""); [contradiction|reflexivity].
  - rewrite H. cbn. now destruct (String.eqb (env (envName EnvPrefix ToUpper f)) "").
  - rewrite H. now destruct (String.eqb (env (envName EnvPrefix ToUpper f)) ""),
                            (negb (String.eqb (flag_Value f) "")).
Qed.

Lemma passFlag_then_skipped f env : skipped EnvPrefix ToUpper f (passFlag EnvPrefix ToUpper f env).
Proof.
  unfold skipped.
  destruct (String.eqb_spec (flag_Value f) "") as [V|V]; [auto|].
  destruct (Setenv_ok (envName EnvPrefix ToUpper f) (flag_Value f)) eqn:Ok; [|auto].
  left. unfold Main.passFlag, Getenv, Setenv. rewrite Ok.
  destruct (String.eqb_spec (env (envName EnvPrefix ToUpper f)) "") as [E|N]; [|exact N].
  destruct (String.eqb_spec (flag_Value f) ""); [contradiction|]. cbn [negb].
  now rewrite String.eqb_refl.
Qed.

Lemma skipped_stays f g env : skipped EnvPrefix ToUpper f env -> skipped EnvPrefix ToUpper f (passFlag EnvPrefix ToUpper g env).
Proof.
  unfold skipped. intros [H|[H|H]]; auto. left.
  destruct (passFlag_at g env (envName EnvPrefix ToUpper f)) as [P|[_ [Pe _]]]; congruence.
Qed.

Lemma skipped_after_passFlags f flags : forall env,
  skipped EnvPrefix ToUpper f env -> skipped EnvPrefix ToUpper f (passFlags EnvPrefix ToUpper flags env).
Proof.
  induction flags as [|g rest IH]; intros env H; [exact H|].
  cbn [Main.passFlags]. apply IH. now apply skipped_stays.
Qed.

Lemma passFlags_all_skipped flags : forall env,
  Forall (fun f => skipped EnvPrefix ToUpper f (passFlags EnvPrefix ToUpper flags env)) flags.
Proof.
  induction flags as [|f rest IH]; intros env; constructor.
  - cbn [Main.passFlags]. apply skipped_after_passFlags.
    apply passFlag_then_skipped.
  - cbn [Main.passFlags]. apply IH.
Qed.

Lemma passFlags_skipped_id flags env :
  Forall (fun f => skipped EnvPrefix ToUpper f env) flags -> passFlags EnvPrefix ToUpper flags env = env.
Proof.
  induction 1 as [|f rest Hf _ IH]; [reflexivity|].
  cbn [Main.passFlags]. now rewrite (skipped_passFlag_id f env Hf).
Qed.

(** X19. The pass over the flags never overwrites a variable that is
    set: a variable that is not empty before it has the same value after
    it, whatever the flags are. *)
Theorem passFlags_keeps_set flags env k :
  Getenv env k <> "" ->
  Getenv (passFlags EnvPrefix ToUpper flags env) k = Getenv env k.
Proof.
  unfold Getenv. intros N.
  destruct (passFlags_at flags env k) as [H|[He _]]; [exact H|contradiction].
Qed.

(** X20. What the pass writes: a variable whose value changes was empty,
    is the prefixed upper-case name of one of the flags, and now holds
    that flag's value, which is not empty. No other variable changes and
    no empty value is written. *)
Theorem passFlags_writes_flag_values flags env k :
  Getenv (passFlags EnvPrefix ToUpper flags env) k <> Getenv env k ->
  Getenv env k = "" /\
  exists f, In f flags /\ k = (EnvPrefix ++ "_" ++ ToUpper (flag_Name f))%string /\
            flag_Value f <> "" /\
            Getenv (passFlags EnvPrefix ToUpper flags env) k = flag_Value f.
Proof.
  unfold Getenv. intros N.
  destruct (passFlags_at flags env k) as [H|[He [f [Hin [Hk [Hv Hf]]]]]];
    [contradiction|].
  split; [exact He|]. exists f. auto.
Qed.

(** X21. The pass is idempotent: running it again on the environment it
    produced changes nothing, also when two flags share a variable or the
    system refuses an assignment. *)
Theorem passFlags_idempotent flags env :
  passFlags EnvPrefix ToUpper flags (passFlags EnvPrefix ToUpper flags env) = passFlags EnvPrefix ToUpper flags env.
Proof.
  apply passFlags_skipped_id. apply passFlags_all_skipped.
Qed.

(** X22. Under [-try] the token the client factory reads is the test
    token, whatever the flags and the environment were, so a factory that
    reads the prepared environment returns the fake client for the type
    [GitHub]. *)
Theorem try_selects_fake_client {W : Type} (host : Releases.Host W)
    flags env ctx (s : St W Releases.Ev) :
  (forall k, Releases.os_Getenv host k (world s)
             = Getenv (prepareEnv EnvPrefix ToUpper true flags env) k) ->
  Getenv (prepareEnv EnvPrefix ToUpper true flags env) "GITHUB_TOKEN"
  = "faketoken" /\
  Releases.NewClient host ctx Releases.GitHub s
  = (Returns (Some (Releases.ClientFake Releases.FakeClient_zero), None), s).
Proof.
  intros Henv.
  assert (T : Getenv (prepareEnv EnvPrefix ToUpper true flags env) "GITHUB_TOKEN"
              = "faketoken").
  { unfold prepareEnv, Getenv.
    destruct (passFlags_at flags (Setenv "GITHUB_TOKEN" "faketoken" env)
                "GITHUB_TOKEN") as [H|[He _]].
    - rewrite H. reflexivity.
    - discriminate He. }
  split; [exact T|].
  unfold Releases.NewClient, bind, peek, ret. cbn [Releases.Type_eqb negb].
  unfold Releases.tokenEnvVar. rewrite Henv, T. reflexivity.
Qed.

End EnvironmentFacts.

Lemma passFlags_keeps_set_witness :
  Main.Getenv (Main.passFlags "HUGORELEASER" Examples.upper
                 [ {| Main.flag_Name := "GITHUB_TOKEN";
                      Main.flag_Value := "other" |} ]
                 (fun k => if String.eqb k "HUGORELEASER_GITHUB_TOKEN"
                           then "kept" else ""%string))
    "HUGORELEASER_GITHUB_TOKEN"
  = "kept"%string.
Proof.
  refine (passFlags_keeps_set "HUGORELEASER" Examples.upper
            [ {| Main.flag_Name := "GITHUB_TOKEN";
                 Main.flag_Value := "other" |} ]
            (fun k => if String.eqb k "HUGORELEASER_GITHUB_TOKEN"
                      then "kept" else ""%string)
            "HUGORELEASER_GITHUB_TOKEN" _).
  discriminate.
Defined.

Lemma passFlags_writes_flag_values_witness :
  Main.Getenv Examples.env0 "HUGORELEASER_TAG" = ""%string /\
  exists f, In f Examples.flags0 /\
            "HUGORELEASER_TAG"%string
            = ("HUGORELEASER" ++ "_" ++ Examples.upper (Main.flag_Name f))%string /\
            Main.flag_Value f <> ""%string /\
            Main.Getenv (Main.passFlags "HUGORELEASER" Examples.upper
                           Examples.flags0 Examples.env0) "HUGORELEASER_TAG"
            = Main.flag_Value f.
Proof.
  refine (passFlags_writes_flag_values "HUGORELEASER" Examples.upper
            Examples.flags0 Examples.env0 "HUGORELEASER_TAG" _).
  discriminate.
Defined.

Lemma try_selects_fake_client_witness :
  Main.Getenv (Main.prepareEnv "HUGORELEASER" Examples.upper true
                 Examples.flags0 Examples.env0) "GITHUB_TOKEN"
  = "faketoken"%string /\
  Releases.NewClient Examples.envHost Go.Background Releases.GitHub
    (Go.mkSt (Main.prepareEnv "HUGORELEASER" Examples.upper true
                Examples.flags0 Examples.env0) [])
  = (Go.Returns (Some (Releases.ClientFake Releases.FakeClient_zero), None),
     Go.mkSt (Main.prepareEnv "HUGORELEASER" Examples.upper true
                Examples.flags0 Examples.env0) []).
Proof.
  exact (try_selects_fake_client "HUGORELEASER" Examples.upper
           Examples.envHost Examples.flags0 Examples.env0 Go.Background
           (Go.mkSt (Main.prepareEnv "HUGORELEASER" Examples.upper true
                       Examples.flags0 Examples.env0) [])
           (fun k => eq_refl)).
Defined.

(** ** The dry run, end to end *)

Section DryRunTrip.
Import Go Releases.
Context {W : Type} (host : Host W).
Local Open Scope list_scope.

(** X23. With the test token in the environment, the client that
    [NewClient] returns, used through the [Client] interface, makes a
    round trip: [Release] returns an identifier without error and without
    a request to the remote service, and on the client so left
    [UploadAssetsFile] accepts that identifier with a file that is not
    nil and rejects every other identifier. *)
Theorem dry_run_round_trip ctx tagName committish settings (fh : File)
    (s : St W Ev) :
  os_Getenv host tokenEnvVar (world s) = "faketoken" ->
  exists cv cv' id s1,
    NewClient host ctx GitHub s = (Returns (Some cv, None), s) /\
    Release (Client := ClientValue_Client host) cv ctx tagName committish
      settings s = (Returns (cv', (id, None)), s1) /\
    existsb is_network (skipn (List.length (calls s)) (calls s1)) = false /\
    (forall s2 : St W Ev,
       UploadAssetsFile (Client := ClientValue_Client host) cv' ctx settings
         (Some fh) id s2 = (Returns None, s2)) /\
    (forall id2 (s2 : St W Ev), id2 <> id ->
       exists e,
         UploadAssetsFile (Client := ClientValue_Client host) cv' ctx settings
           (Some fh) id2 s2 = (Returns (Some e), s2)).
Proof.
  intros Htok.
  set (id := Z.land (fst (rand_Uint64 host (world s))) rngMask).
  exists (ClientFake FakeClient_zero), (ClientFake {| releaseID := id |}), id.
  eexists. split.
  { unfold NewClient, bind, peek, ret. cbn [Type_eqb negb]. now rewrite Htok. }
  split.
  { cbn [Release ClientValue_Client]. unfold bind at 1.
    rewrite FakeClient_Release_eq. reflexivity. }
  split.
  { cbn [calls]. rewrite skipn_app, skipn_all, Nat.sub_diag. reflexivity. }
  split.
  - intros s2. cbn [UploadAssetsFile ClientValue_Client].
    unfold FakeClient_UploadAssetsFile. cbn [releaseID isNil].
    now rewrite Z.eqb_refl.
  - intros id2 s2 N. cbn [UploadAssetsFile ClientValue_Client].
    unfold FakeClient_UploadAssetsFile. cbn [releaseID].
    destruct (Z.eqb_spec id id2); [congruence|]. cbn [negb].
    eexists. reflexivity.
Qed.

End DryRunTrip.

Lemma dry_run_round_trip_witness :
  exists cv cv' id s1,
    Releases.NewClient Examples.testHost Go.Background Releases.GitHub
      (Go.mkSt 0%nat [])
    = (Go.Returns (Some cv, None), Go.mkSt 0%nat []) /\
    Releases.Release (Client := Releases.ClientValue_Client Examples.testHost)
      cv Go.Background "v1.0.0" "main" Examples.settings0 (Go.mkSt 0%nat [])
    = (Go.Returns (cv', (id, None)), s1) /\
    existsb Releases.is_network (skipn 0 (Go.calls s1)) = false /\
    (forall s2 : Go.St nat Releases.Ev,
       Releases.UploadAssetsFile
         (Client := Releases.ClientValue_Client Examples.testHost) cv'
         Go.Background Examples.settings0 (Some Examples.file0) id s2
       = (Go.Returns None, s2)) /\
    (forall id2 (s2 : Go.St nat Releases.Ev), id2 <> id ->
       exists e,
         Releases.UploadAssetsFile
           (Client := Releases.ClientValue_Client Examples.testHost) cv'
           Go.Background Examples.settings0 (Some Examples.file0) id2 s2
         = (Go.Returns (Some e), s2)).
Proof.
  exact (dry_run_round_trip Examples.testHost Go.Background "v1.0.0" "main"
           Examples.settings0 Examples.file0 (Go.mkSt 0%nat []) eq_refl).
Defined.
